(** * MHO hospital-operations assistant: router, executor and turn controller

    A shallow embedding of [services/agentService.ts] (the two-phase
    delegation protocol), of [types.ts] and of the turn controller in
    [App.tsx], together with the properties the specification states
    about them.

    The generation backend and the clock are oracles: every call site of
    the source that reads one of them receives its answer from the
    environment of the turn. *)

From Stdlib Require Import String Ascii List Bool ZArith NArith QArith Lia.
From Stdlib Require Import DecimalString.
Import ListNotations.

Local Open Scope list_scope.
Local Open Scope string_scope.

Set Warnings "-register-all".

(* ================================================================== *)
(** ** JavaScript values *)
(* ================================================================== *)

(** The result of evaluating a JavaScript expression: a value, or an
    exception.  The source never inspects a caught exception (both
    [catch] blocks only log it), so the thrown value is not recorded. *)
Inductive Completion (A : Type) : Type :=
| Normal (a : A)
| Throw.
Arguments Normal {A} a.
Arguments Throw {A}.

Definition bind {A B : Type} (m : Completion A) (k : A -> Completion B)
  : Completion B :=
  match m with
  | Normal a => k a
  | Throw => Throw
  end.

(** [try { body } catch { handler }] *)
Definition try_catch {A : Type} (body handler : Completion A) : Completion A :=
  match body with
  | Normal a => Normal a
  | Throw => handler
  end.

Declare Scope js_scope.
Delimit Scope js_scope with js.
Notation "'let*' x ':=' m 'in' k" := (bind m (fun x => k))
  (at level 10, x name, m at level 100, k at level 200) : js_scope.

(** The values that reach this program at run time through [JSON.parse]
    and through the arguments of a function call: plain data.  A number
    is kept as the numeric literal it was written with; the program
    never computes with one.  An object keeps its properties in
    insertion order. *)
Inductive JsValue : Type :=
| JUndefined
| JNull
| JBool (b : bool)
| JNum (literal : string)
| JStr (s : string)
| JArr (items : list JsValue)
| JObj (props : list (string * JsValue)).

Definition dquote : ascii := ascii_of_nat 34.
Definition newline : string := String (ascii_of_nat 10) EmptyString.
Definition quoted (s : string) : string :=
  String dquote (s ++ String dquote EmptyString).

(** Own property lookup.  When a key occurs twice the later definition
    wins, as with [JSON.parse]. *)
Fixpoint own_property (props : list (string * JsValue)) (k : string)
  : option JsValue :=
  match props with
  | [] => None
  | (k', v) :: rest =>
      match own_property rest k with
      | Some w => Some w
      | None => if String.eqb k' k then Some v else None
      end
  end.

(** [o.k] on an object made of plain data: an own property, else
    [undefined].  (None of the keys the source reads is defined on
    [Object.prototype].) *)
Definition member (props : list (string * JsValue)) (k : string) : JsValue :=
  match own_property props k with
  | Some v => v
  | None => JUndefined
  end.

(** [v.k] for the property names the source reads ([agent], [reasoning]):
    a [TypeError] on [undefined] and [null], [undefined] on the other
    primitives and on arrays, which have no such property. *)
Definition get (v : JsValue) (k : string) : Completion JsValue :=
  match v with
  | JUndefined | JNull => Throw
  | JObj props => Normal (member props k)
  | JBool _ | JNum _ | JStr _ | JArr _ => Normal JUndefined
  end.

(** [ToString], as applied by a template literal [`${v}`].  A number
    prints as the literal it was written with (its canonical decimal
    form is not computed).  An array is joined with commas, [null] and
    [undefined] elements printing as the empty string.  A plain object prints through
    [Object.prototype.toString], unless it has an own property named
    [toString]: plain data is not callable, and converting the object
    to a primitive then raises a [TypeError]. *)
Fixpoint ToString (v : JsValue) : Completion string :=
  match v with
  | JUndefined => Normal "undefined"
  | JNull => Normal "null"
  | JBool true => Normal "true"
  | JBool false => Normal "false"
  | JNum literal => Normal literal
  | JStr s => Normal s
  | JArr items =>
      let element (x : JsValue) : Completion string :=
        match x with
        | JUndefined | JNull => Normal EmptyString
        | _ => ToString x
        end in
      (fix join (l : list JsValue) : Completion string :=
         match l with
         | [] => Normal EmptyString
         | [x] => element x
         | x :: rest =>
             match element x, join rest with
             | Normal s, Normal t => Normal (s ++ "," ++ t)
             | _, _ => Throw
             end
         end) items
  | JObj props =>
      match own_property props "toString" with
      | Some _ => Throw
      | None => Normal "[object Object]"
      end
  end.

(** [a === b] where [b] is a string constant. *)
Definition strict_eq_string (a : JsValue) (b : string) : bool :=
  match a with
  | JStr s => String.eqb s b
  | _ => false
  end.

(** [n.toString()] for an integer [n]. *)
Definition Z_toString (n : Z) : string :=
  NilZero.string_of_int (Z.to_int n).

(* ================================================================== *)
(** ** [JSON.parse] *)
(* ================================================================== *)

(** The platform's [JSON.parse], as a pushdown automaton that reads the
    text one character at a time: [None] is the [SyntaxError].  A string
    of the program is the sequence of the bytes of its UTF-8 encoding; a
    [\uXXXX] escape is stored as the UTF-8 encoding of that code unit. *)
Module JSON.

Inductive Frame : Type :=
| InArray (items_rev : list JsValue)
| InObject (props_rev : list (string * JsValue)) (key : string).

Inductive NumState : Type :=
| NMinus | NZero | NInt | NDot | NFrac | NExp | NExpSign | NExpDigits.

Inductive Mode : Type :=
| MValue                                   (* a value starts here *)
| MFirstItem                               (* just after '[' *)
| MFirstKey                                (* just after '{' *)
| MKey                                     (* after ',' in an object *)
| MColon                                   (* after a key *)
| MAfter                                   (* after a value in a container *)
| MDone (v : JsValue)                      (* after the top-level value *)
| MString (is_key : bool) (acc_rev : list ascii)
| MEscape (is_key : bool) (acc_rev : list ascii)
| MUnicode (is_key : bool) (acc_rev : list ascii) (hex : list N)
| MLiteral (rest : list ascii) (v : JsValue)
| MNumber (st : NumState) (acc_rev : list ascii).

Definition State : Type := (list Frame * Mode)%type.

Definition is_ws (c : ascii) : bool :=
  match c with
  | " "%char | "009"%char | "010"%char | "013"%char => true
  | _ => false
  end.

Definition is_digit (c : ascii) : bool :=
  let n := N_of_ascii c in ((48 <=? n) && (n <=? 57))%N.

Definition hex_digit (c : ascii) : option N :=
  let n := N_of_ascii c in
  if ((48 <=? n) && (n <=? 57))%N then Some (n - 48)%N
  else if ((65 <=? n) && (n <=? 70))%N then Some (n - 55)%N
  else if ((97 <=? n) && (n <=? 102))%N then Some (n - 87)%N
  else None.

Definition utf8 (u : N) : list ascii :=
  if (u <? 128)%N then [ascii_of_N u]
  else if (u <? 2048)%N then
    [ascii_of_N (192 + u / 64); ascii_of_N (128 + u mod 64)]
  else
    [ascii_of_N (224 + u / 4096); ascii_of_N (128 + (u / 64) mod 64);
     ascii_of_N (128 + u mod 64)].

Definition text_of (acc_rev : list ascii) : string :=
  string_of_list_ascii (rev acc_rev).

(** A value is complete: it becomes the result, the next item of the
    enclosing array, or the value of the pending key. *)
Definition finish_value (v : JsValue) (stack : list Frame) : State :=
  match stack with
  | [] => ([], MDone v)
  | InArray items :: tl => (InArray (v :: items) :: tl, MAfter)
  | InObject props key :: tl => (InObject ((key, v) :: props) EmptyString :: tl, MAfter)
  end.

Definition finish_string (is_key : bool) (acc_rev : list ascii)
           (stack : list Frame) : option State :=
  if is_key then
    match stack with
    | InObject props _ :: tl => Some (InObject props (text_of acc_rev) :: tl, MColon)
    | _ => None
    end
  else Some (finish_value (JStr (text_of acc_rev)) stack).

Definition num_step (st : NumState) (c : ascii) : option NumState :=
  let e := match c with "e"%char | "E"%char => true | _ => false end in
  let dot := Ascii.eqb c "."%char in
  match st with
  | NMinus =>
      if Ascii.eqb c "0"%char then Some NZero
      else if is_digit c then Some NInt else None
  | NZero => if dot then Some NDot else if e then Some NExp else None
  | NInt =>
      if is_digit c then Some NInt
      else if dot then Some NDot else if e then Some NExp else None
  | NDot => if is_digit c then Some NFrac else None
  | NFrac => if is_digit c then Some NFrac else if e then Some NExp else None
  | NExp =>
      match c with
      | "+"%char | "-"%char => Some NExpSign
      | _ => if is_digit c then Some NExpDigits else None
      end
  | NExpSign => if is_digit c then Some NExpDigits else None
  | NExpDigits => if is_digit c then Some NExpDigits else None
  end.

Definition num_final (st : NumState) : bool :=
  match st with
  | NZero | NInt | NFrac | NExpDigits => true
  | _ => false
  end.

(** What may follow a complete value. *)
Definition after_value (s : State) (c : ascii) : option State :=
  if is_ws c then Some s
  else
    match s with
    | (InArray items :: tl, MAfter) =>
        match c with
        | ","%char => Some (InArray items :: tl, MValue)
        | "]"%char => Some (finish_value (JArr (rev items)) tl)
        | _ => None
        end
    | (InObject props key :: tl, MAfter) =>
        match c with
        | ","%char => Some (InObject props key :: tl, MKey)
        | "}"%char => Some (finish_value (JObj (rev props)) tl)
        | _ => None
        end
    | _ => None
    end.

Definition start_value (stack : list Frame) (c : ascii) : option State :=
  if Ascii.eqb c dquote then Some (stack, MString false [])
  else if is_digit c then
    Some (stack, MNumber (if Ascii.eqb c "0"%char then NZero else NInt) [c])
  else
    match c with
    | "{"%char => Some (InObject [] EmptyString :: stack, MFirstKey)
    | "["%char => Some (InArray [] :: stack, MFirstItem)
    | "-"%char => Some (stack, MNumber NMinus [c])
    | "t"%char => Some (stack, MLiteral (list_ascii_of_string "rue") (JBool true))
    | "f"%char => Some (stack, MLiteral (list_ascii_of_string "alse") (JBool false))
    | "n"%char => Some (stack, MLiteral (list_ascii_of_string "ull") JNull)
    | _ => None
    end.

Definition unescape (c : ascii) : option ascii :=
  if Ascii.eqb c dquote then Some dquote
  else
    match c with
    | "\"%char => Some "\"%char
    | "/"%char => Some "/"%char
    | "b"%char => Some "008"%char
    | "f"%char => Some "012"%char
    | "n"%char => Some "010"%char
    | "r"%char => Some "013"%char
    | "t"%char => Some "009"%char
    | _ => None
    end.

Definition step (s : State) (c : ascii) : option State :=
  let (stack, mode) := s in
  match mode with
  | MValue => if is_ws c then Some s else start_value stack c
  | MFirstItem =>
      if is_ws c then Some s
      else if Ascii.eqb c "]"%char then
        match stack with
        | InArray _ :: tl => Some (finish_value (JArr []) tl)
        | _ => None
        end
      else start_value stack c
  | MFirstKey =>
      if is_ws c then Some s
      else if Ascii.eqb c "}"%char then
        match stack with
        | InObject _ _ :: tl => Some (finish_value (JObj []) tl)
        | _ => None
        end
      else if Ascii.eqb c dquote then Some (stack, MString true [])
      else None
  | MKey =>
      if is_ws c then Some s
      else if Ascii.eqb c dquote then Some (stack, MString true [])
      else None
  | MColon =>
      if is_ws c then Some s
      else if Ascii.eqb c ":"%char then Some (stack, MValue)
      else None
  | MAfter | MDone _ => after_value s c
  | MString k acc =>
      if Ascii.eqb c dquote then finish_string k acc stack
      else if Ascii.eqb c "\"%char then Some (stack, MEscape k acc)
      else if (N_of_ascii c <? 32)%N then None
      else Some (stack, MString k (c :: acc))
  | MEscape k acc =>
      if Ascii.eqb c "u"%char then Some (stack, MUnicode k acc [])
      else
        match unescape c with
        | Some x => Some (stack, MString k (x :: acc))
        | None => None
        end
  | MUnicode k acc hex =>
      match hex_digit c with
      | None => None
      | Some d =>
          match hex with
          | [d1; d2; d3] =>
              let u := (((d1 * 16 + d2) * 16 + d3) * 16 + d)%N in
              Some (stack, MString k (rev (utf8 u) ++ acc)%list)
          | _ => Some (stack, MUnicode k acc (hex ++ [d])%list)
          end
      end
  | MLiteral rest v =>
      match rest with
      | [] => None
      | [x] => if Ascii.eqb c x then Some (finish_value v stack) else None
      | x :: rest' => if Ascii.eqb c x then Some (stack, MLiteral rest' v) else None
      end
  | MNumber st acc =>
      match num_step st c with
      | Some st' => Some (stack, MNumber st' (c :: acc))
      | None =>
          if num_final st
          then after_value (finish_value (JNum (text_of acc)) stack) c
          else None
      end
  end.

Fixpoint run (s : State) (input : list ascii) : option State :=
  match input with
  | [] => Some s
  | c :: rest =>
      match step s c with
      | Some s' => run s' rest
      | None => None
      end
  end.

(** At the end of the text a pending number is complete; the text is
    accepted when exactly one top-level value has been read. *)
Definition finish (s : State) : option JsValue :=
  match s with
  | ([], MDone v) => Some v
  | ([], MNumber st acc) => if num_final st then Some (JNum (text_of acc)) else None
  | _ => None
  end.

Definition parse (text : string) : option JsValue :=
  match run ([], MValue) (list_ascii_of_string text) with
  | Some s => finish s
  | None => None
  end.

End JSON.


(* ================================================================== *)
(** ** The generation SDK ([@google/genai]) *)
(* ================================================================== *)

(** The declarations of the SDK that the service uses.  Optional fields
    are options; the accessors [text] and [functionCalls] of a response
    are the values they return. *)
Module genai.

Inductive Type_ : Type := OBJECT | STRING.

Inductive Schema : Type :=
| Build_Schema (type : Type_) (description : option string)
               (enum : option (list string))
               (properties : option (list (string * Schema)))
               (additionalProperties : option bool)
               (required : option (list string)).

Module FunctionDeclaration.
Record t : Type :=
  { name : string; description : string; parameters : Schema }.
End FunctionDeclaration.

Inductive Tool : Type :=
| functionDeclarations (decls : list FunctionDeclaration.t)
| googleSearch.

Module GenerateContentConfig.
Record t : Type :=
  { systemInstruction : string;
    responseMimeType : option string;
    tools : option (list Tool);
    temperature : Q }.
End GenerateContentConfig.

Module GenerateContentParameters.
Record t : Type :=
  { model : string; contents : string; config : GenerateContentConfig.t }.
End GenerateContentParameters.

Module GroundingChunkWeb.
Record t : Type := { uri : option string; title : option string }.
End GroundingChunkWeb.

Module GroundingChunk.
Record t : Type := { web : option GroundingChunkWeb.t }.
End GroundingChunk.

Module GroundingMetadata.
Record t : Type := { groundingChunks : option (list GroundingChunk.t) }.
End GroundingMetadata.

Module Candidate.
Record t : Type := { groundingMetadata : option GroundingMetadata.t }.
End Candidate.

Module FunctionCall.
Record t : Type :=
  { name : option string; args : option (list (string * JsValue)) }.
End FunctionCall.

Module GenerateContentResponse.
Record t : Type :=
  { text : option string;
    functionCalls : option (list FunctionCall.t);
    candidates : option (list Candidate.t) }.
End GenerateContentResponse.

(** [await ai.models.generateContent(request)]: the promise resolves
    with a response, or rejects (transport, authentication, quota),
    which the [await] turns into an exception. *)
Definition Backend : Type :=
  GenerateContentParameters.t -> Completion GenerateContentResponse.t.

End genai.

(* ================================================================== *)
(** ** [types.ts] *)
(* ================================================================== *)

Module AgentType.

Inductive t : Type :=
| ORCHESTRATOR | ADMISSION | SCHEDULING | PHARMACY | BILLING.

(** The string each member of the enum stands for. *)
Definition value (a : t) : string :=
  match a with
  | ORCHESTRATOR => "Central Manager"
  | ADMISSION => "PatientAdmissionAgent"
  | SCHEDULING => "AppointmentSchedulingAgent"
  | PHARMACY => "PharmacyManagementAgent"
  | BILLING => "BillingAndFinanceAgent"
  end.

Definition js (a : t) : JsValue := JStr (value a).

(** The enumerated specialists: every member but the router. *)
Definition specialists : list t := [ADMISSION; SCHEDULING; PHARMACY; BILLING].

Definition is_specialist (v : JsValue) : bool :=
  existsb (fun a => strict_eq_string v (value a)) specialists.

End AgentType.

(** The fields of a generated document are declared as strings and a
    record; at run time they hold whatever the arguments of the tool
    call held ([call.args as any]). *)
Module GeneratedDocumentData.
Record t : Type :=
  { title : JsValue; type : JsValue; content : JsValue; footer : JsValue }.
End GeneratedDocumentData.

Module GroundingSource.
Record t : Type := { uri : option string; title : option string }.
End GroundingSource.

Inductive Role : Type := user | model.

Module ChatMessage.
Record t : Type :=
  { id : string;
    role : Role;
    text : string;
    sender : JsValue;
    timestamp : Z;
    documentData : option GeneratedDocumentData.t;
    groundingSources : option (list GroundingSource.t) }.
End ChatMessage.

Inductive Status : Type := SUCCESS | PENDING | DENIED.

Module AuditLogEntry.
Record t : Type :=
  { id : string;
    timestamp : string;
    agent : JsValue;
    action : string;
    status : Status }.
End AuditLogEntry.

(* ================================================================== *)
(** ** [services/agentService.ts] *)
(* ================================================================== *)

Module agentService.

Import genai.

(** Tool 1: Generate Document (used by Admission, Pharmacy, Billing). *)
Definition generateDocumentFunction : FunctionDeclaration.t :=
  {| FunctionDeclaration.name := "generate_document";
     FunctionDeclaration.description :=
       "Generates an official hospital document (Invoice, Prescription, Admission Form). REQUIRED for any formal request.";
     FunctionDeclaration.parameters :=
       Build_Schema OBJECT None None
         (Some
            [("docType",
              Build_Schema STRING
                (Some "Type of document: INVOICE, PRESCRIPTION, ADMISSION_FORM, MEMO")
                (Some ["INVOICE"; "PRESCRIPTION"; "ADMISSION_FORM"; "MEMO"])
                None None None);
             ("title",
              Build_Schema STRING (Some "Title of the document")
                None None None None);
             ("fields",
              Build_Schema OBJECT
                (Some "Key-value pairs of the document content (e.g., Patient Name, Cost, Drug Name)")
                None None (Some true) None);
             ("complianceNote",
              Build_Schema STRING (Some "HIPAA or Audit compliance footer note")
                None None None None)])
         None
         (Some ["docType"; "title"; "fields"; "complianceNote"]) |}.

(** *** Phase 1: orchestrator *)

Module Delegation.
Record t : Type := { agent : JsValue; reasoning : JsValue }.
End Delegation.

Definition orchestrator_systemInstruction : string :=
  EmptyString
  ++ newline ++ "    ROLE: You are the Central Manager (Orchestrator) for the MHO (Manage Hospital Operations) system."
  ++ newline ++ "    GOAL: Analyze the user request and delegate it to the single most appropriate Sub-Agent."
  ++ newline ++ "    "
  ++ newline ++ "    SUB-AGENTS:"
  ++ newline ++ "    1. PatientAdmissionAgent: Registration, EHR updates, admission/discharge."
  ++ newline ++ "    2. AppointmentSchedulingAgent: New appointments, rescheduling, doctor availability."
  ++ newline ++ "    3. PharmacyManagementAgent: Medication requests, drug interactions, prescriptions."
  ++ newline ++ "    4. BillingAndFinanceAgent: Invoices (Faktur), Insurance Claims (Klaim), Revenue Cycle Management (RCM)."
  ++ newline ++ "    "
  ++ newline ++ "    OUTPUT: Return a JSON object ONLY."
  ++ newline ++ "    {"
  ++ newline ++ "      " ++ quoted "agent" ++ ": " ++ quoted "PatientAdmissionAgent"
             ++ " | " ++ quoted "AppointmentSchedulingAgent"
             ++ " | " ++ quoted "PharmacyManagementAgent"
             ++ " | " ++ quoted "BillingAndFinanceAgent" ++ ","
  ++ newline ++ "      " ++ quoted "reasoning" ++ ": " ++ quoted "Brief explanation of why"
  ++ newline ++ "    }"
  ++ newline ++ "  ".

Definition orchestrator_request (userQuery : string) : GenerateContentParameters.t :=
  {| GenerateContentParameters.model := "gemini-2.5-flash";
     GenerateContentParameters.contents := userQuery;
     GenerateContentParameters.config :=
       {| GenerateContentConfig.systemInstruction := orchestrator_systemInstruction;
          GenerateContentConfig.responseMimeType := Some "application/json";
          GenerateContentConfig.tools := None;
          GenerateContentConfig.temperature := 1 # 10 |} |}.

(** [!text] for [text : string | undefined]. *)
Definition falsy (text : option string) : bool :=
  match text with
  | None => true
  | Some s => String.eqb s EmptyString
  end.

(** [text || other] for [text : string | undefined]. *)
Definition or_else (text : option string) (other : string) : string :=
  match text with
  | Some s => if String.eqb s EmptyString then other else s
  | None => other
  end.

(** [JSON.parse(text)]; a text that is no JSON raises a [SyntaxError]. *)
Definition JSON_parse (text : option string) : Completion JsValue :=
  match text with
  | None => Throw
  | Some s =>
      match JSON.parse s with
      | Some v => Normal v
      | None => Throw
      end
  end.

(** The fallback of the [catch] block. *)
Definition fallback : Delegation.t :=
  {| Delegation.agent := AgentType.js AgentType.ADMISSION;
     Delegation.reasoning := JStr "Fallback due to error." |}.

Definition orchestrateRequest (backend : Backend) (userQuery : string)
  : Completion Delegation.t :=
  try_catch
    (let* response := backend (orchestrator_request userQuery) in
     let text := GenerateContentResponse.text response in
     if falsy text then Throw
     else
       let* result := JSON_parse text in
       let* agent := get result "agent" in
       let* reasoning := get result "reasoning" in
       Normal {| Delegation.agent := agent; Delegation.reasoning := reasoning |})%js
    (Normal fallback).

(** *** Phase 2: sub-agent execution *)

Module Result.
Record t : Type :=
  { text : string;
    document : option GeneratedDocumentData.t;
    groundingSources : option (list GroundingSource.t) }.
End Result.

(** The [switch] on the agent: its persona and its tools. *)
Definition persona (agent : JsValue) : string * list Tool :=
  if strict_eq_string agent (AgentType.value AgentType.ADMISSION) then
    ("Role: PatientAdmissionAgent. "
     ++ newline ++ "      Task: Handle patient registration and EHR updates. "
     ++ newline ++ "      Compliance: Ensure HIPAA compliance. Use 'generate_document' if the user needs an Admission Form.",
     [functionDeclarations [generateDocumentFunction]])
  else if strict_eq_string agent (AgentType.value AgentType.SCHEDULING) then
    ("Role: AppointmentSchedulingAgent. "
     ++ newline ++ "      Task: Check doctor availability and schedule appointments. "
     ++ newline ++ "      Tools: Use Google Search to find doctor schedules or general medical dept info if implied.",
     [googleSearch])
  else if strict_eq_string agent (AgentType.value AgentType.PHARMACY) then
    ("Role: PharmacyManagementAgent. "
     ++ newline ++ "      Task: Check drug interactions and issue prescriptions."
     ++ newline ++ "      Tools: Use Google Search to verify drug contraindications. Use 'generate_document' to issue a PRESCRIPTION.",
     [googleSearch; functionDeclarations [generateDocumentFunction]])
  else if strict_eq_string agent (AgentType.value AgentType.BILLING) then
    ("Role: BillingAndFinanceAgent (RCM Focus). "
     ++ newline ++ "      Task: Manage invoices, insurance claims, and financial audits."
     ++ newline ++ "      Tone: Professional, precise, audit-ready."
     ++ newline ++ "      Tools: You MUST use 'generate_document' if the user asks for an invoice (Faktur) or claim status report.",
     [functionDeclarations [generateDocumentFunction]])
  else
    ("You are a helpful hospital assistant.", []).

Definition agent_request (agent : JsValue) (userQuery history : string)
  : GenerateContentParameters.t :=
  let (systemInstruction, tools) := persona agent in
  {| GenerateContentParameters.model := "gemini-2.5-flash";
     GenerateContentParameters.contents :=
       "Context: " ++ history ++ newline ++ newline
       ++ "Current Request: " ++ userQuery;
     GenerateContentParameters.config :=
       {| GenerateContentConfig.systemInstruction := systemInstruction;
          GenerateContentConfig.responseMimeType := None;
          GenerateContentConfig.tools := Some tools;
          GenerateContentConfig.temperature := 3 # 10 |} |}.

(** [response.candidates?.[0]?.groundingMetadata?.groundingChunks] *)
Definition groundingChunks_of (response : GenerateContentResponse.t)
  : option (list GroundingChunk.t) :=
  match GenerateContentResponse.candidates response with
  | Some (candidate :: _) =>
      match Candidate.groundingMetadata candidate with
      | Some metadata => GroundingMetadata.groundingChunks metadata
      | None => None
      end
  | _ => None
  end.

(** Check for grounding (search results): [.map(chunk => chunk.web)
    .filter(web => web).map(web => ({ uri: web.uri, title: web.title }))] *)
Definition sources_of (response : GenerateContentResponse.t)
  : list GroundingSource.t :=
  match groundingChunks_of response with
  | Some chunks =>
      let webs := map GroundingChunk.web chunks in
      let kept := filter (fun web => match web with Some _ => true | None => false end) webs in
      flat_map
        (fun web =>
           match web with
           | Some w => [ {| GroundingSource.uri := GroundingChunkWeb.uri w;
                            GroundingSource.title := GroundingChunkWeb.title w |} ]
           | None => []
           end)
        kept
  | None => []
  end.

Definition name_is (call : FunctionCall.t) (n : string) : bool :=
  match FunctionCall.name call with
  | Some s => String.eqb s n
  | None => false
  end.

(** Handle function calls (tool usage), then the plain text: the pair
    [(outputText, generatedDoc)] before the default text is applied. *)
Definition interpret (response : GenerateContentResponse.t)
  : Completion (string * option GeneratedDocumentData.t) :=
  match GenerateContentResponse.functionCalls response with
  | Some (call :: _) =>
      if name_is call "generate_document" then
        match FunctionCall.args call with
        | None => Throw
        | Some args =>
            let generatedDoc :=
              {| GeneratedDocumentData.type := member args "docType";
                 GeneratedDocumentData.title := member args "title";
                 GeneratedDocumentData.content := member args "fields";
                 GeneratedDocumentData.footer := member args "complianceNote" |} in
            (let* docType := ToString (member args "docType") in
             Normal ("I have generated the " ++ docType
                     ++ " document for you. Please verify the details below.",
                     Some generatedDoc))%js
        end
      else Normal (EmptyString, None)
  | _ =>
      Normal (or_else (GenerateContentResponse.text response) "Processed request.",
              None)
  end.

(** The reply of the [catch] block. *)
Definition failure : Result.t :=
  {| Result.text :=
       "I encountered a system error processing your request. Please contact IT support.";
     Result.document := None;
     Result.groundingSources := None |}.

(** The [try] block: one generation call and the interpretation of its
    response. *)
Definition executeAgentTask_try (backend : Backend) (agent : JsValue)
           (userQuery history : string) : Completion Result.t :=
  (let* response := backend (agent_request agent userQuery history) in
   let sources := sources_of response in
   let* interpreted := interpret response in
   let (outputText, generatedDoc) := interpreted in
   let outputText :=
     match generatedDoc with
     | Some _ =>
         if String.eqb outputText EmptyString then "Document generated."
         else outputText
     | None => outputText
     end in
   Normal {| Result.text := outputText;
             Result.document := generatedDoc;
             Result.groundingSources := Some sources |})%js.

Definition executeAgentTask (backend : Backend) (agent : JsValue)
           (userQuery history : string) : Completion Result.t :=
  try_catch (executeAgentTask_try backend agent userQuery history)
            (Normal failure).

End agentService.

(* ================================================================== *)
(** ** [App.tsx]: the turn controller *)
(* ================================================================== *)

Module App.

Import agentService.

(** What the clock and the random generator answer at one place of the
    source: [Date.now()], [new Date()], [Math.random()] as it prints,
    and [new Date().toLocaleTimeString()]. *)
Module Clock.
Record t : Type :=
  { now : Z; date : Z; random : string; localeTime : string }.
End Clock.

(** The environment of one call of [handleSend]: the backend, and the
    clock at the five places that read it. *)
Module Env.
Record t : Type :=
  { backend : genai.Backend;
    at_user : Clock.t;
    at_delegation : Clock.t;
    at_reply : Clock.t;
    at_execution : Clock.t;
    at_error : Clock.t }.
End Env.

(** The state of the component that the controller reads and writes
    ([isSidebarOpen] and the scroll reference only drive rendering). *)
Record State : Type :=
  { messages : list ChatMessage.t;
    input : string;
    isLoading : bool;
    currentAgent : JsValue;
    auditLogs : list AuditLogEntry.t }.

(** The welcome message; [mounted] is what [new Date()] gave when the
    component was mounted. *)
Definition welcome (mounted : Z) : ChatMessage.t :=
  {| ChatMessage.id := "welcome";
     ChatMessage.role := model;
     ChatMessage.sender := AgentType.js AgentType.ORCHESTRATOR;
     ChatMessage.text :=
       "Welcome to MHO (Manage Hospital Operations). I am the Central Manager. How can I assist you today? (e.g., 'Check my insurance claim', 'Schedule a cardiology appointment')";
     ChatMessage.timestamp := mounted;
     ChatMessage.documentData := None;
     ChatMessage.groundingSources := None |}.

(** The state at mount. *)
Definition initial (mounted : Z) : State :=
  {| messages := [welcome mounted];
     input := EmptyString;
     isLoading := false;
     currentAgent := AgentType.js AgentType.ORCHESTRATOR;
     auditLogs := [] |}.

(** *** State setters *)

Definition setMessages (f : list ChatMessage.t -> list ChatMessage.t)
           (st : State) : State :=
  {| messages := f (messages st); input := input st;
     isLoading := isLoading st; currentAgent := currentAgent st;
     auditLogs := auditLogs st |}.

Definition setInput (v : string) (st : State) : State :=
  {| messages := messages st; input := v;
     isLoading := isLoading st; currentAgent := currentAgent st;
     auditLogs := auditLogs st |}.

Definition setIsLoading (b : bool) (st : State) : State :=
  {| messages := messages st; input := input st;
     isLoading := b; currentAgent := currentAgent st;
     auditLogs := auditLogs st |}.

Definition setCurrentAgent (a : JsValue) (st : State) : State :=
  {| messages := messages st; input := input st;
     isLoading := isLoading st; currentAgent := a;
     auditLogs := auditLogs st |}.

Definition setAuditLogs (f : list AuditLogEntry.t -> list AuditLogEntry.t)
           (st : State) : State :=
  {| messages := messages st; input := input st;
     isLoading := isLoading st; currentAgent := currentAgent st;
     auditLogs := f (auditLogs st) |}.

(** The entry that [addAuditLog] builds. *)
Definition newLog (clock : Clock.t) (agent : JsValue) (action : string)
  : AuditLogEntry.t :=
  {| AuditLogEntry.id := Z_toString (Clock.now clock) ++ Clock.random clock;
     AuditLogEntry.timestamp := Clock.localeTime clock;
     AuditLogEntry.agent := agent;
     AuditLogEntry.action := action;
     AuditLogEntry.status := SUCCESS |}.

Definition addAuditLog (clock : Clock.t) (agent : JsValue) (action : string)
           (st : State) : State :=
  setAuditLogs (fun prev => prev ++ [newLog clock agent action])%list st.

(** *** [String.prototype.trim] *)

(** The number of bytes of the white-space character at the head of a
    UTF-8 text (white space and line terminators of ECMAScript), or 0. *)
Definition ws_length (l : list ascii) : nat :=
  match map N_of_ascii l with
  | (9 | 10 | 11 | 12 | 13 | 32)%N :: _ => 1
  | 194%N :: 160%N :: _ => 2
  | 225%N :: 154%N :: 128%N :: _ => 3
  | 226%N :: 128%N :: b :: _ =>
      if (((128 <=? b) && (b <=? 138)) || (b =? 168) || (b =? 169) || (b =? 175))%N
      then 3 else 0
  | 226%N :: 129%N :: 159%N :: _ => 3
  | 227%N :: 128%N :: 128%N :: _ => 3
  | 239%N :: 187%N :: 191%N :: _ => 3
  | _ => 0
  end%nat.

Fixpoint trimStart_from (skip : nat) (l : list ascii) : list ascii :=
  match l with
  | [] => []
  | _ :: rest =>
      match skip with
      | S k => trimStart_from k rest
      | O =>
          match ws_length l with
          | O => l
          | S k => trimStart_from k rest
          end
      end
  end.

Definition trimStart (l : list ascii) : list ascii := trimStart_from 0 l.

Fixpoint trimEnd (l : list ascii) : list ascii :=
  match l with
  | [] => []
  | c :: rest =>
      match trimStart l with
      | [] => []
      | _ :: _ => c :: trimEnd rest
      end
  end.

Definition trim (s : string) : string :=
  string_of_list_ascii (trimEnd (trimStart (list_ascii_of_string s))).

(** *** [handleSend] *)

(** A computation of the [try] block: it reads and writes the state,
    and may throw; what it wrote before throwing stays written. *)
Definition M (A : Type) : Type := State -> Completion A * State.

Definition ret {A : Type} (a : A) : M A := fun st => (Normal a, st).

Definition seq {A B : Type} (m : M A) (k : A -> M B) : M B :=
  fun st =>
    match m st with
    | (Normal a, st') => k a st'
    | (Throw, st') => (Throw, st')
    end.

Definition eval {A : Type} (c : Completion A) : M A := fun st => (c, st).

Definition update (f : State -> State) : M unit := fun st => (Normal tt, f st).

Notation "x <- m ;; k" := (seq m (fun x => k))
  (at level 61, m at next level, right associativity).
Notation "m ;;; k" := (seq m (fun _ => k))
  (at level 61, right associativity).

(** [`${m.sender}: ${m.text}`] *)
Definition history_line (m : ChatMessage.t) : Completion string :=
  (let* sender := ToString (ChatMessage.sender m) in
   Normal (sender ++ ": " ++ ChatMessage.text m))%js.

(** [messages.map(...)] *)
Fixpoint history_lines (ms : list ChatMessage.t) : Completion (list string) :=
  match ms with
  | [] => Normal []
  | m :: rest =>
      (let* line := history_line m in
       let* lines := history_lines rest in
       Normal (line :: lines))%js
  end.

Definition historyContext (ms : list ChatMessage.t) : Completion string :=
  (let* lines := history_lines ms in Normal (String.concat newline lines))%js.

Definition userMsg_of (env : Env.t) (st : State) : ChatMessage.t :=
  {| ChatMessage.id := Z_toString (Clock.now (Env.at_user env));
     ChatMessage.role := user;
     ChatMessage.text := input st;
     ChatMessage.sender := JStr "User";
     ChatMessage.timestamp := Clock.date (Env.at_user env);
     ChatMessage.documentData := None;
     ChatMessage.groundingSources := None |}.

Definition agentMsg_of (env : Env.t) (delegation : Delegation.t)
           (response : Result.t) : ChatMessage.t :=
  {| ChatMessage.id := Z_toString (Clock.now (Env.at_reply env) + 1);
     ChatMessage.role := model;
     ChatMessage.text := Result.text response;
     ChatMessage.sender := Delegation.agent delegation;
     ChatMessage.timestamp := Clock.date (Env.at_reply env);
     ChatMessage.documentData := Result.document response;
     ChatMessage.groundingSources := Result.groundingSources response |}.

Definition errorMsg_of (env : Env.t) : ChatMessage.t :=
  {| ChatMessage.id := Z_toString (Clock.now (Env.at_error env));
     ChatMessage.role := model;
     ChatMessage.text :=
       "I apologize, but I encountered a secure connection error. Please try again.";
     ChatMessage.sender := AgentType.js AgentType.ORCHESTRATOR;
     ChatMessage.timestamp := Clock.date (Env.at_error env);
     ChatMessage.documentData := None;
     ChatMessage.groundingSources := None |}.

(** [`Delegated to ${delegation.agent}`] *)
Definition delegated_action (delegation : Delegation.t) : Completion string :=
  (let* agent := ToString (Delegation.agent delegation) in
   Normal ("Delegated to " ++ agent))%js.

(** [response.document ? `Generated ${response.document.type}` :
    'Responded to query'] *)
Definition executed_action (response : Result.t) : Completion string :=
  match Result.document response with
  | Some document =>
      (let* type := ToString (GeneratedDocumentData.type document) in
       Normal ("Generated " ++ type))%js
  | None => Normal "Responded to query"
  end.

(** The [try] block.  [closure] is the [messages] the handler was
    created with: the list before the user's message was appended. *)
Definition handleSend_try (env : Env.t) (closure : list ChatMessage.t)
           (userMsg : ChatMessage.t) : M unit :=
  (* 1. Orchestrator phase *)
  update (setCurrentAgent (AgentType.js AgentType.ORCHESTRATOR)) ;;;
  delegation <- eval (orchestrateRequest (Env.backend env) (ChatMessage.text userMsg)) ;;
  action <- eval (delegated_action delegation) ;;
  update (addAuditLog (Env.at_delegation env)
                      (AgentType.js AgentType.ORCHESTRATOR) action) ;;;
  update (setCurrentAgent (Delegation.agent delegation)) ;;;
  (* 2. Execution phase *)
  history <- eval (historyContext closure) ;;
  response <- eval (executeAgentTask (Env.backend env) (Delegation.agent delegation)
                                     (ChatMessage.text userMsg) history) ;;
  let agentMsg := agentMsg_of env delegation response in
  update (setMessages (fun prev => prev ++ [agentMsg])%list) ;;;
  action <- eval (executed_action response) ;;
  update (addAuditLog (Env.at_execution env) (Delegation.agent delegation) action).

(** The [catch] block. *)
Definition handleSend_catch (env : Env.t) (st : State) : State :=
  setCurrentAgent (AgentType.js AgentType.ORCHESTRATOR)
    (setMessages (fun prev => prev ++ [errorMsg_of env])%list st).

(** [!input.trim() || isLoading] *)
Definition rejected (st : State) : bool :=
  String.eqb (trim (input st)) EmptyString || isLoading st.

(** The state in which the [try] block starts: the user's message is
    appended, the input box is cleared, the turn is in flight. *)
Definition started (env : Env.t) (st : State) : State :=
  setIsLoading true
    (setInput EmptyString
       (setMessages (fun prev => prev ++ [userMsg_of env st])%list st)).

Definition handleSend (env : Env.t) (st : State) : State :=
  if rejected st then st
  else
    let userMsg := userMsg_of env st in
    let (outcome, st2) := handleSend_try env (messages st) userMsg (started env st) in
    let st3 :=
      match outcome with
      | Normal _ => st2
      | Throw => handleSend_catch env st2
      end in
    (* finally *)
    setIsLoading false st3.

(** How a call of [handleSend] ended: refused by the guard, run to the
    end of the [try] block, or ended in the [catch] block. *)
Inductive Outcome : Type := Rejected | Completed | Failed.

Definition outcome (env : Env.t) (st : State) : Outcome :=
  if rejected st then Rejected
  else
    match fst (handleSend_try env (messages st) (userMsg_of env st) (started env st)) with
    | Normal _ => Completed
    | Throw => Failed
    end.

(** *** Sessions *)

(** What the user can do: type in the input box ([onChange]), send
    (the button or the Enter key), pick an agent in the sidebar
    ([onSelectAgent]). *)
Inductive Action : Type :=
| Type_ (v : string)
| Send (env : Env.t)
| Select (a : AgentType.t).

Definition step (st : State) (a : Action) : State :=
  match a with
  | Type_ v => setInput v st
  | Send env => handleSend env st
  | Select a => setCurrentAgent (AgentType.js a) st
  end.

Definition run (st : State) (actions : list Action) : State :=
  fold_left step actions st.

(** The number of calls of [handleSend] of a session that ran to the
    end of their [try] block. *)
Fixpoint completed_turns (st : State) (actions : list Action) : nat :=
  match actions with
  | [] => 0
  | a :: rest =>
      (match a with
       | Send env =>
           match outcome env st with Completed => 1 | _ => 0 end
       | _ => 0
       end + completed_turns (step st a) rest)%nat
  end.

(** *** The ways through a turn *)

(** A message whose sender a template literal can print. *)
Definition printable (m : ChatMessage.t) : Prop :=
  exists s, ToString (ChatMessage.sender m) = Normal s.

(** An audit entry with the status [SUCCESS]. *)
Definition succeeded (e : AuditLogEntry.t) : Prop :=
  AuditLogEntry.status e = SUCCESS.

(** The state after the delegation has been logged and shown. *)
Definition delegated (env : Env.t) (d : Delegation.t) (action : string)
           (st : State) : State :=
  setCurrentAgent (Delegation.agent d)
    (addAuditLog (Env.at_delegation env) (AgentType.js AgentType.ORCHESTRATOR) action
       (setCurrentAgent (AgentType.js AgentType.ORCHESTRATOR) st)).

(** The state after the agent's reply has been appended. *)
Definition replied (env : Env.t) (d : Delegation.t) (action : string)
           (r : Result.t) (st : State) : State :=
  setMessages (fun prev => prev ++ [agentMsg_of env d r])%list
              (delegated env d action st).

(** The ways through the [try] block: the three template literals that
    may raise, and the way to its end. *)
Inductive Path (env : Env.t) (closure : list ChatMessage.t) (userQuery : string)
          (st : State) : Completion unit * State -> Prop :=
| Unprintable_agent d :
    orchestrateRequest (Env.backend env) userQuery = Normal d ->
    delegated_action d = Throw ->
    Path env closure userQuery st
         (Throw, setCurrentAgent (AgentType.js AgentType.ORCHESTRATOR) st)
| Unprintable_history d action :
    orchestrateRequest (Env.backend env) userQuery = Normal d ->
    delegated_action d = Normal action ->
    historyContext closure = Throw ->
    Path env closure userQuery st (Throw, delegated env d action st)
| Unprintable_type d action history r :
    orchestrateRequest (Env.backend env) userQuery = Normal d ->
    delegated_action d = Normal action ->
    historyContext closure = Normal history ->
    executeAgentTask (Env.backend env) (Delegation.agent d) userQuery history
      = Normal r ->
    executed_action r = Throw ->
    Path env closure userQuery st (Throw, replied env d action r st)
| Through d action history r action' :
    orchestrateRequest (Env.backend env) userQuery = Normal d ->
    delegated_action d = Normal action ->
    historyContext closure = Normal history ->
    executeAgentTask (Env.backend env) (Delegation.agent d) userQuery history
      = Normal r ->
    executed_action r = Normal action' ->
    Path env closure userQuery st
         (Normal tt,
          addAuditLog (Env.at_execution env) (Delegation.agent d) action'
                      (replied env d action r st)).

End App.

(* ================================================================== *)
(** ** Reading the specification *)
(* ================================================================== *)

(** The sources the specification describes for a sequence of grounding
    chunks: the (uri, title) pair of each chunk that carries a web
    reference, in order; a chunk without one is dropped. *)
Fixpoint web_references (chunks : list genai.GroundingChunk.t)
  : list GroundingSource.t :=
  match chunks with
  | [] => []
  | chunk :: rest =>
      match genai.GroundingChunk.web chunk with
      | Some w =>
          {| GroundingSource.uri := genai.GroundingChunkWeb.uri w;
             GroundingSource.title := genai.GroundingChunkWeb.title w |}
          :: web_references rest
      | None => web_references rest
      end
  end.

(** The chunks attached to a response, none when it carries no grounding
    metadata. *)
Definition attached_chunks (response : genai.GenerateContentResponse.t)
  : list genai.GroundingChunk.t :=
  match agentService.groundingChunks_of response with
  | Some chunks => chunks
  | None => []
  end.

(** The structured reply of the router's backend, decoded: none when the
    call fails, when the response has no text, or when the text is not
    JSON. *)
Definition decoded_reply (backend : genai.Backend) (userQuery : string)
  : option JsValue :=
  match backend (agentService.orchestrator_request userQuery) with
  | Normal response =>
      match genai.GenerateContentResponse.text response with
      | Some text => JSON.parse text
      | None => None
      end
  | Throw => None
  end.

(** What a sequence has gained over an earlier version of it. *)
Definition appended {A : Type} (before after : list A) : list A :=
  skipn (length before) after.

(** The fixed confirmation template of the document tool. *)
Definition confirmation (docType : string) : string :=
  "I have generated the " ++ docType
  ++ " document for you. Please verify the details below.".

(** The configuration of the request that the executor sends for an
    agent. *)
Definition config_of (agent : JsValue) (userQuery history : string)
  : genai.GenerateContentConfig.t :=
  genai.GenerateContentParameters.config
    (agentService.agent_request agent userQuery history).

(** The document tool, as a member of a tool set. *)
Definition document_tool : genai.Tool :=
  genai.functionDeclarations [agentService.generateDocumentFunction].

(** [starts_with p s]: the text [s] starts with [p]. *)
Fixpoint starts_with (p s : string) : bool :=
  match p, s with
  | EmptyString, _ => true
  | String a p', String b s' => Ascii.eqb a b && starts_with p' s'
  | String _ _, EmptyString => false
  end.

(* ================================================================== *)
(** ** Scenarios *)
(* ================================================================== *)

(** Concrete backends, responses and sessions, on which the functions
    above are evaluated below. *)
Module Scenario.

Import genai.

Definition reply (text : option string) (calls : option (list FunctionCall.t))
           (chunks : option (list GroundingChunk.t)) : GenerateContentResponse.t :=
  {| GenerateContentResponse.text := text;
     GenerateContentResponse.functionCalls := calls;
     GenerateContentResponse.candidates :=
       Some [ {| Candidate.groundingMetadata :=
                   Some {| GroundingMetadata.groundingChunks := chunks |} |} ] |}.

(** The router's structured reply naming [agent]:
    [{"agent":"<agent>","reasoning":"<reasoning>"}]. *)
Definition routing (agent reasoning : string) : string :=
  "{" ++ quoted "agent" ++ ":" ++ quoted agent ++ ","
      ++ quoted "reasoning" ++ ":" ++ quoted reasoning ++ "}".

Definition is_routing_request (request : GenerateContentParameters.t) : bool :=
  match GenerateContentConfig.responseMimeType
          (GenerateContentParameters.config request) with
  | Some _ => true
  | None => false
  end.

(** A backend that answers the router's request with [routed] and an
    agent's request with [answered]. *)
Definition backend_of (routed answered : Completion GenerateContentResponse.t)
  : Backend :=
  fun request => if is_routing_request request then routed else answered.

Definition says (text : string) : Completion GenerateContentResponse.t :=
  Normal (reply (Some text) None None).

Definition unreachable : Backend := fun _ => Throw.

(** The router's backend names the router itself. *)
Definition names_router : Backend :=
  backend_of (says (routing "Central Manager" "General enquiry"))
             (says "How can I help?").

(** The backend calls a function that is not the document tool. *)
Definition other_call : FunctionCall.t :=
  {| FunctionCall.name := Some "lookup_patient";
     FunctionCall.args := Some [("patientId", JStr "P-17")] |}.

Definition calls_other_tool : Backend :=
  backend_of (says (routing "PatientAdmissionAgent" "Registration"))
             (Normal (reply (Some "Looking the patient up.") (Some [other_call]) None)).

(** The document-tool invocation of the specification's example. *)
Definition invoice_args : list (string * JsValue) :=
  [("docType", JStr "INVOICE");
   ("title", JStr "T");
   ("fields", JObj [("Amount", JStr "100")]);
   ("complianceNote", JStr "C")].

Definition invoice_call : FunctionCall.t :=
  {| FunctionCall.name := Some "generate_document";
     FunctionCall.args := Some invoice_args |}.

Definition issues_invoice : Backend :=
  backend_of (says (routing "BillingAndFinanceAgent" "Invoice"))
             (Normal (reply None (Some [invoice_call; other_call]) None)).

(** The grounding chunks of the specification's example. *)
Definition web (uri title : string) : GroundingChunk.t :=
  {| GroundingChunk.web :=
       Some {| GroundingChunkWeb.uri := Some uri;
               GroundingChunkWeb.title := Some title |} |}.

Definition no_web : GroundingChunk.t := {| GroundingChunk.web := None |}.

Definition chunks : list GroundingChunk.t := [web "a" "A"; no_web; web "b" "B"].

Definition grounded : Backend :=
  backend_of (says (routing "AppointmentSchedulingAgent" "Schedule"))
             (Normal (reply (Some "Dr. A is available.") None (Some chunks))).

(** A grounded response whose document-tool call carries no arguments. *)
Definition bare_call : FunctionCall.t :=
  {| FunctionCall.name := Some "generate_document"; FunctionCall.args := None |}.

Definition grounded_bare_call : Backend :=
  backend_of (says (routing "PharmacyManagementAgent" "Prescription"))
             (Normal (reply None (Some [bare_call]) (Some chunks))).

Definition clock (now : Z) : App.Clock.t :=
  {| App.Clock.now := now; App.Clock.date := now;
     App.Clock.random := "0.5"; App.Clock.localeTime := "10:00:00 AM" |}.

Definition env_of (backend : Backend) (now : Z) : App.Env.t :=
  {| App.Env.backend := backend;
     App.Env.at_user := clock now;
     App.Env.at_delegation := clock (now + 1);
     App.Env.at_reply := clock (now + 2);
     App.Env.at_execution := clock (now + 3);
     App.Env.at_error := clock (now + 4) |}.

(** The user asks a question that the router's backend assigns to the
    router itself. *)
Definition cafeteria_env : App.Env.t := env_of names_router 1000.

Definition cafeteria_typed : App.State :=
  App.setInput "Where is the cafeteria?" (App.initial 0).

Definition asks_cafeteria : list App.Action :=
  [App.Type_ "Where is the cafeteria?"; App.Send cafeteria_env].

(** The reply of the generic persona, as the controller records it. *)
Definition cafeteria_reply : ChatMessage.t :=
  {| ChatMessage.id := "1003";
     ChatMessage.role := model;
     ChatMessage.text := "How can I help?";
     ChatMessage.sender := JStr "Central Manager";
     ChatMessage.timestamp := 1002;
     ChatMessage.documentData := None;
     ChatMessage.groundingSources := Some [] |}.

(** The router's backend answers with an agent that no template literal
    can print: [{"agent":{"toString":1},"reasoning":"?"}]. *)
Definition names_unprintable : Backend :=
  backend_of
    (says ("{" ++ quoted "agent" ++ ":{" ++ quoted "toString" ++ ":1},"
               ++ quoted "reasoning" ++ ":" ++ quoted "?" ++ "}"))
    (says "How can I help?").

(** A session of three sends: an invoice, a blank input that the guard
    refuses, and a grounded answer. *)
Definition invoice_env : App.Env.t := env_of issues_invoice 1000.

Definition invoice_typed : App.State :=
  App.setInput "Invoice for surgery" (App.initial 0).

Definition two_turns : list App.Action :=
  [App.Type_ "Invoice for surgery"; App.Send invoice_env;
   App.Type_ "   "; App.Send (env_of grounded 2000);
   App.Type_ "Is Dr. A available?"; App.Send (env_of grounded 3000)].

End Scenario.

(* ================================================================== *)
(** ** [components/Sidebar.tsx] *)
(* ================================================================== *)

(** What the sidebar computes from its properties: which agent button
    is marked as active, and the rows of the audit log. *)
Module Sidebar.

Module Agent.
Record t : Type :=
  { id : AgentType.t; label : string; icon : string; color : string }.
End Agent.

Definition agents : list Agent.t :=
  [ {| Agent.id := AgentType.ORCHESTRATOR; Agent.label := "Central Manager";
       Agent.icon := "🧠"; Agent.color := "text-indigo-600" |};
    {| Agent.id := AgentType.ADMISSION; Agent.label := "Patient Admission";
       Agent.icon := "📋"; Agent.color := "text-purple-600" |};
    {| Agent.id := AgentType.SCHEDULING; Agent.label := "Scheduling";
       Agent.icon := "📅"; Agent.color := "text-blue-600" |};
    {| Agent.id := AgentType.PHARMACY; Agent.label := "Pharmacy";
       Agent.icon := "💊"; Agent.color := "text-teal-600" |};
    {| Agent.id := AgentType.BILLING; Agent.label := "Billing & RCM";
       Agent.icon := "💳"; Agent.color := "text-emerald-600" |} ].

(** [activeAgent === agent.id] *)
Definition isActive (activeAgent : JsValue) (agent : Agent.t) : bool :=
  strict_eq_string activeAgent (AgentType.value (Agent.id agent)).

(** The class of the label of an agent button. *)
Definition labelClass (activeAgent : JsValue) (agent : Agent.t) : string :=
  "text-sm font-medium "
  ++ (if isActive activeAgent agent then Agent.color agent else "text-gray-600").

(** The agents whose button shows the green dot. *)
Definition marked (activeAgent : JsValue) : list Agent.t :=
  filter (isActive activeAgent) agents.

(** [onClick] of an agent button: [onSelectAgent(agent.id)]. *)
Definition onClick (agent : Agent.t) : App.Action :=
  App.Select (Agent.id agent).

(** [auditLogs.slice().reverse()]: the rows of the log, in the order in
    which they are shown. *)
Definition rows (auditLogs : list AuditLogEntry.t) : list AuditLogEntry.t :=
  rev auditLogs.

(** The class of the status of a row. *)
Definition statusClass (log : AuditLogEntry.t) : string :=
  "font-mono font-bold "
  ++ match AuditLogEntry.status log with
     | SUCCESS => "text-green-600"
     | _ => "text-amber-600"
     end.


End Sidebar.

(* ================================================================== *)
(** ** [components/DocumentViewer.tsx] *)
(* ================================================================== *)

Module DocumentViewer.

Definition getIcon (data : GeneratedDocumentData.t) : string :=
  let type := GeneratedDocumentData.type data in
  if strict_eq_string type "INVOICE" then "💰"
  else if strict_eq_string type "PRESCRIPTION" then "💊"
  else if strict_eq_string type "ADMISSION_FORM" then "📋"
  else "📄".

Definition getColor (data : GeneratedDocumentData.t) : string :=
  let type := GeneratedDocumentData.type data in
  if strict_eq_string type "INVOICE" then "border-emerald-500 bg-emerald-50"
  else if strict_eq_string type "PRESCRIPTION" then "border-blue-500 bg-blue-50"
  else if strict_eq_string type "ADMISSION_FORM" then "border-purple-500 bg-purple-50"
  else "border-gray-500 bg-gray-50".

(** [key.replace(/_/g, ' ')]: the label of a field. *)
Fixpoint fieldLabel (key : string) : string :=
  match key with
  | EmptyString => EmptyString
  | String c rest =>
      String (if Ascii.eqb c "_"%char then " "%char else c) (fieldLabel rest)
  end.

End DocumentViewer.

(* ================================================================== *)
(** ** [App.tsx]: what is rendered *)
(* ================================================================== *)

Module View.

(** [disabled] of the Send button: [isLoading || !input.trim()]. *)
Definition sendDisabled (st : App.State) : bool :=
  App.isLoading st || String.eqb (App.trim (App.input st)) EmptyString.

(** The Sources list of a message is rendered:
    [msg.groundingSources && msg.groundingSources.length > 0]. *)
Definition showsSources (msg : ChatMessage.t) : bool :=
  match ChatMessage.groundingSources msg with
  | Some (_ :: _) => true
  | _ => false
  end.

(** The document of a message is rendered: [msg.documentData && ...]. *)
Definition showsDocument (msg : ChatMessage.t) : bool :=
  match ChatMessage.documentData msg with
  | Some _ => true
  | None => false
  end.

End View.

(* ================================================================== *)
(** ** Measures of a session *)
(* ================================================================== *)

(** A character of white space of the ASCII range: tab, line feed,
    vertical tab, form feed, carriage return, space. *)
Definition is_space (c : ascii) : bool :=
  let n := N_of_ascii c in
  ((n =? 9) || (n =? 10) || (n =? 11) || (n =? 12) || (n =? 13) || (n =? 32))%N.

(** A text made of such characters only; the empty text is one. *)
Definition blank (s : string) : bool :=
  forallb is_space (list_ascii_of_string s).

(** The number of calls of [handleSend] of a session that passed the
    guard. *)
Fixpoint accepted_turns (st : App.State) (actions : list App.Action) : nat :=
  match actions with
  | [] => 0
  | a :: rest =>
      (match a with
       | App.Send _ => if App.rejected st then 0 else 1
       | _ => 0
       end + accepted_turns (App.step st a) rest)%nat
  end.

(** The roles of the messages of [n] turns: a request, then a reply. *)
Fixpoint turn_roles (n : nat) : list Role :=
  match n with
  | O => []
  | S k => user :: model :: turn_roles k
  end.

(** Some chunk carries a web reference. *)
Definition has_web (chunks : list genai.GroundingChunk.t) : bool :=
  existsb (fun chunk =>
             match genai.GroundingChunk.web chunk with
             | Some _ => true
             | None => false
             end)
          chunks.

(** Further concrete inputs. *)
Module Cases.

Import genai.

Definition plain : Backend :=
  Scenario.backend_of
    (Scenario.says (Scenario.routing "AppointmentSchedulingAgent" "Schedule"))
    (Scenario.says "Dr. A is available on Monday.").

Definition silent : GenerateContentResponse.t := Scenario.reply None None None.

(** A document-tool call whose document type no template can print. *)
Definition odd_call : FunctionCall.t :=
  {| FunctionCall.name := Some "generate_document";
     FunctionCall.args := Some [("docType", JObj [("toString", JNum "1")])] |}.

Definition blank_typed : App.State :=
  App.setInput "   " (App.initial 0).

Definition schedule_typed : App.State :=
  App.setInput "Is Dr. A available?" (App.initial 0).

Definition schedule_env : App.Env.t := Scenario.env_of Scenario.grounded 1000.

Definition invoice_document : GeneratedDocumentData.t :=
  {| GeneratedDocumentData.title := JStr "T";
     GeneratedDocumentData.type := JStr "INVOICE";
     GeneratedDocumentData.content := JObj [("Amount", JStr "100")];
     GeneratedDocumentData.footer := JStr "C" |}.

Definition invoice_result : agentService.Result.t :=
  {| agentService.Result.text :=
       "I have generated the INVOICE document for you. Please verify the details below.";
     agentService.Result.document := Some invoice_document;
     agentService.Result.groundingSources := Some [] |}.

Definition memo_document : GeneratedDocumentData.t :=
  {| GeneratedDocumentData.title := JStr "Ward round";
     GeneratedDocumentData.type := JStr "MEMO";
     GeneratedDocumentData.content := JObj [("To", JStr "Ward 3")];
     GeneratedDocumentData.footer := JStr "Internal" |}.

Definition schedule_delegation : agentService.Delegation.t :=
  {| agentService.Delegation.agent := JStr "AppointmentSchedulingAgent";
     agentService.Delegation.reasoning := JStr "Schedule" |}.

Definition schedule_result : agentService.Result.t :=
  {| agentService.Result.text := "Dr. A is available.";
     agentService.Result.document := None;
     agentService.Result.groundingSources :=
       Some [ {| GroundingSource.uri := Some "a"; GroundingSource.title := Some "A" |};
              {| GroundingSource.uri := Some "b"; GroundingSource.title := Some "B" |} ] |}.

Definition pharmacy_button : Sidebar.Agent.t :=
  {| Sidebar.Agent.id := AgentType.PHARMACY; Sidebar.Agent.label := "Pharmacy";
     Sidebar.Agent.icon := "💊"; Sidebar.Agent.color := "text-teal-600" |}.

End Cases.

(* ================================================================== *)
(** ** The router *)
(* ================================================================== *)

Section Router.

Import agentService.
Import genai.

Variable backend : Backend.
Variable userQuery : string.

Lemma try_catch_total {A : Type} (body : Completion A) (a : A) :
  exists r, try_catch body (Normal a) = Normal r.
Proof. destruct body as [b|]; simpl; eauto. Qed.

(** The router never raises. *)
Lemma orchestrateRequest_total :
  exists d, orchestrateRequest backend userQuery = Normal d.
Proof. apply try_catch_total. Qed.

(** C4: when the backend call of the router raises, [orchestrateRequest]
    does not raise: it returns the admission agent with the rationale
    that marks the fallback. *)
Theorem orchestrateRequest_backend_error :
  backend (orchestrator_request userQuery) = Throw ->
  orchestrateRequest backend userQuery =
    Normal {| Delegation.agent := JStr "PatientAdmissionAgent";
              Delegation.reasoning := JStr "Fallback due to error." |}.
Proof.
  intros Hcall. unfold orchestrateRequest. rewrite Hcall. reflexivity.
Qed.

(** C1, as amended: [orchestrateRequest] always returns.  Without a
    decoded reply (the call failed, the response has no text, the text
    is not JSON) and for the reply [null] it returns the fallback
    specialist; otherwise it returns the [agent] field of the decoded
    reply exactly as the backend wrote it, [undefined] when the reply
    has no such field.  The field is not compared with the specialist
    set. *)
Theorem orchestrateRequest_agent :
  exists d,
    orchestrateRequest backend userQuery = Normal d /\
    match decoded_reply backend userQuery with
    | None | Some JNull | Some JUndefined => d = fallback
    | Some (JObj props) =>
        Delegation.agent d = member props "agent" /\
        Delegation.reasoning d = member props "reasoning"
    | Some _ =>
        Delegation.agent d = JUndefined /\ Delegation.reasoning d = JUndefined
    end.
Proof.
  unfold orchestrateRequest, decoded_reply.
  destruct (backend (orchestrator_request userQuery)) as [response|];
    simpl; [|eauto].
  destruct (GenerateContentResponse.text response) as [text|];
    simpl; [|eauto].
  destruct (String.eqb text EmptyString) eqn:Hempty; simpl.
  - apply String.eqb_eq in Hempty. subst text. simpl. eauto.
  - destruct (JSON.parse text) as [result|]; simpl; [|eauto].
    destruct result; simpl; eauto.
Qed.

End Router.


(** C1 fails as stated: a well-formed reply that names the router is
    returned as it is, and the router's identifier is no specialist. *)
Lemma orchestrateRequest_returns_router :
  exists d,
    agentService.orchestrateRequest Scenario.names_router "Where is the cafeteria?"
      = Normal d /\
    agentService.Delegation.agent d = AgentType.js AgentType.ORCHESTRATOR /\
    AgentType.is_specialist (agentService.Delegation.agent d) = false.
Proof.
  eexists. split; [vm_compute; reflexivity|]. split; reflexivity.
Qed.

(** The same happens with an identifier that is no agent at all. *)
Example orchestrateRequest_returns_unknown :
  agentService.orchestrateRequest
    (Scenario.backend_of (Scenario.says (Scenario.routing "RadiologyAgent" "Scan"))
                         Throw)
    "Book a scan"
  = Normal {| agentService.Delegation.agent := JStr "RadiologyAgent";
              agentService.Delegation.reasoning := JStr "Scan" |}.
Proof. vm_compute. reflexivity. Qed.

(** A reply that names a specialist is returned with its rationale. *)
Example orchestrateRequest_named_specialist :
  agentService.orchestrateRequest Scenario.issues_invoice "Invoice for surgery"
  = Normal {| agentService.Delegation.agent := AgentType.js AgentType.BILLING;
              agentService.Delegation.reasoning := JStr "Invoice" |}.
Proof. vm_compute. reflexivity. Qed.

(** Malformed structured output takes the fallback. *)
Example orchestrateRequest_malformed :
  agentService.orchestrateRequest
    (Scenario.backend_of (Scenario.says "{agent: PatientAdmissionAgent") Throw)
    "Register a patient"
  = Normal agentService.fallback.
Proof. vm_compute. reflexivity. Qed.

Lemma orchestrateRequest_backend_error_witness :
  agentService.orchestrateRequest Scenario.unreachable "Register a patient" =
    Normal {| agentService.Delegation.agent := JStr "PatientAdmissionAgent";
              agentService.Delegation.reasoning := JStr "Fallback due to error." |}.
Proof.
  apply (orchestrateRequest_backend_error Scenario.unreachable "Register a patient").
  reflexivity.
Defined.

(* ================================================================== *)
(** ** The executor *)
(* ================================================================== *)

Section Executor.

Import agentService.
Import genai.

Variable backend : Backend.
Variable agent : JsValue.
Variable userQuery history : string.

(** The executor never raises. *)
Lemma executeAgentTask_total :
  exists r, executeAgentTask backend agent userQuery history = Normal r.
Proof. apply try_catch_total. Qed.

(** When the [try] block ends normally its result is the result. *)
Lemma executeAgentTask_normal (r : Result.t) :
  executeAgentTask_try backend agent userQuery history = Normal r ->
  executeAgentTask backend agent userQuery history = Normal r.
Proof. unfold executeAgentTask. intros ->. reflexivity. Qed.

(** The grounding step computes the web references of the chunks. *)
Lemma sources_of_web_references (response : GenerateContentResponse.t) :
  sources_of response = web_references (attached_chunks response).
Proof.
  unfold sources_of, attached_chunks.
  destruct (groundingChunks_of response) as [chunks|]; [|reflexivity].
  induction chunks as [|chunk rest IH]; [reflexivity|].
  simpl. destruct (GroundingChunk.web chunk) as [w|]; simpl.
  - f_equal. exact IH.
  - exact IH.
Qed.

(** C5: when the backend call of the executor raises, [executeAgentTask]
    does not raise: it returns the fixed apologetic text, with no
    document and no grounding sources. *)
Theorem executeAgentTask_backend_error :
  backend (agent_request agent userQuery history) = Throw ->
  executeAgentTask backend agent userQuery history =
    Normal {| Result.text :=
                "I encountered a system error processing your request. Please contact IT support.";
              Result.document := None;
              Result.groundingSources := None |}.
Proof.
  intros Hcall. unfold executeAgentTask, executeAgentTask_try.
  rewrite Hcall. reflexivity.
Qed.

(** C3: when the first function call of the response is the document
    tool, the result carries the document made of its arguments, field
    for field, and the reply is the confirmation template naming the
    document type; the calls after the first play no part. *)
Theorem executeAgentTask_generate_document
        (response : GenerateContentResponse.t) (call : FunctionCall.t)
        (others : list FunctionCall.t) (args : list (string * JsValue))
        (docType : string) :
  backend (agent_request agent userQuery history) = Normal response ->
  GenerateContentResponse.functionCalls response = Some (call :: others) ->
  FunctionCall.name call = Some "generate_document" ->
  FunctionCall.args call = Some args ->
  ToString (member args "docType") = Normal docType ->
  executeAgentTask backend agent userQuery history =
    Normal {| Result.text := confirmation docType;
              Result.document :=
                Some {| GeneratedDocumentData.title := member args "title";
                        GeneratedDocumentData.type := member args "docType";
                        GeneratedDocumentData.content := member args "fields";
                        GeneratedDocumentData.footer := member args "complianceNote" |};
              Result.groundingSources :=
                Some (web_references (attached_chunks response)) |}.
Proof.
  intros Hcall Hcalls Hname Hargs HdocType.
  apply executeAgentTask_normal.
  unfold executeAgentTask_try, interpret, name_is.
  rewrite Hcall. simpl.
  rewrite Hcalls, Hname, Hargs. simpl.
  rewrite HdocType. simpl.
  rewrite sources_of_web_references. reflexivity.
Qed.

(** C8, as amended: whenever the [try] block of [executeAgentTask] ends
    normally, the grounding sources of the result are the (uri, title)
    pairs of the chunks of the response that carry a web reference, in
    their order. *)
Theorem executeAgentTask_groundingSources (r : Result.t) :
  executeAgentTask_try backend agent userQuery history = Normal r ->
  exists response,
    backend (agent_request agent userQuery history) = Normal response /\
    executeAgentTask backend agent userQuery history = Normal r /\
    Result.groundingSources r = Some (web_references (attached_chunks response)).
Proof.
  intros Htry. pose proof (executeAgentTask_normal r Htry) as Hrun.
  unfold executeAgentTask_try in Htry.
  destruct (backend (agent_request agent userQuery history)) as [response|];
    simpl in Htry; [|discriminate].
  exists response. split; [reflexivity|]. split; [exact Hrun|].
  destruct (interpret response) as [[outputText generatedDoc]|];
    simpl in Htry; [|discriminate].
  injection Htry as <-. simpl.
  rewrite sources_of_web_references. reflexivity.
Qed.

(** The reply of a [try] block that ends normally is empty exactly when
    the response has a first function call that is not the document
    tool. *)
Lemma executeAgentTask_try_empty_text (r : Result.t) :
  executeAgentTask_try backend agent userQuery history = Normal r ->
  Result.text r = EmptyString <->
  exists response call others,
    backend (agent_request agent userQuery history) = Normal response /\
    GenerateContentResponse.functionCalls response = Some (call :: others) /\
    name_is call "generate_document" = false.
Proof.
  unfold executeAgentTask_try, interpret.
  destruct (backend (agent_request agent userQuery history)) as [response|];
    simpl; [|discriminate].
  destruct (GenerateContentResponse.functionCalls response)
    as [[|call others]|] eqn:Hcalls.
  - simpl. intros [= <-]. simpl. split.
    + unfold or_else.
      destruct (GenerateContentResponse.text response) as [s|]; [|discriminate].
      destruct (String.eqb s EmptyString) eqn:Hs; [discriminate|].
      intros ->. discriminate.
    + intros (response' & call & others & [= <-] & Habs & _). congruence.
  - destruct (name_is call "generate_document") eqn:Hname.
    + destruct (FunctionCall.args call) as [args|]; [|discriminate].
      destruct (ToString (member args "docType")) as [docType|];
        simpl; [|discriminate].
      intros [= <-]. simpl. split; [discriminate|].
      intros (response' & call' & others' & [= <-] & Hcalls' & Hfalse).
      congruence.
    + simpl. intros [= <-]. simpl. split; [|reflexivity].
      intros _. exists response, call, others. auto.
  - simpl. intros [= <-]. simpl. split.
    + unfold or_else.
      destruct (GenerateContentResponse.text response) as [s|]; [|discriminate].
      destruct (String.eqb s EmptyString) eqn:Hs; [discriminate|].
      intros ->. discriminate.
    + intros (response' & call & others & [= <-] & Habs & _). congruence.
Qed.

End Executor.

(** The persona table, read off the request that is sent. *)
Section Dispatch.

Import agentService.
Import genai.

Variable userQuery history : string.

Lemma not_specialist_persona (agent : JsValue) :
  AgentType.is_specialist agent = false ->
  persona agent = ("You are a helpful hospital assistant.", []).
Proof.
  unfold AgentType.is_specialist, AgentType.specialists. simpl.
  intros H. repeat (apply orb_false_elim in H; destruct H as [? H]).
  unfold persona. cbn [AgentType.value].
  repeat match goal with E : strict_eq_string _ _ = false |- _ => rewrite E; clear E end.
  reflexivity.
Qed.

(** C9: the dispatch gives every specialist its tools (admission the
    document tool, scheduling search only, pharmacy search and the
    document tool, billing the document tool) and its own role
    instruction, which does not depend on the request; any other
    identifier gets the generic assistant persona and an empty tool
    set. *)
Theorem persona_dispatch :
  GenerateContentConfig.tools
    (config_of (AgentType.js AgentType.ADMISSION) userQuery history)
    = Some [document_tool] /\
  GenerateContentConfig.tools
    (config_of (AgentType.js AgentType.SCHEDULING) userQuery history)
    = Some [googleSearch] /\
  GenerateContentConfig.tools
    (config_of (AgentType.js AgentType.PHARMACY) userQuery history)
    = Some [googleSearch; document_tool] /\
  GenerateContentConfig.tools
    (config_of (AgentType.js AgentType.BILLING) userQuery history)
    = Some [document_tool] /\
  (forall a, In a AgentType.specialists ->
     starts_with ("Role: " ++ AgentType.value a)
       (GenerateContentConfig.systemInstruction
          (config_of (AgentType.js a) userQuery history)) = true) /\
  (forall agent userQuery' history',
     GenerateContentConfig.systemInstruction (config_of agent userQuery' history')
       = GenerateContentConfig.systemInstruction (config_of agent userQuery history) /\
     GenerateContentConfig.tools (config_of agent userQuery' history')
       = GenerateContentConfig.tools (config_of agent userQuery history)) /\
  (forall agent, AgentType.is_specialist agent = false ->
     GenerateContentConfig.systemInstruction (config_of agent userQuery history)
       = "You are a helpful hospital assistant." /\
     GenerateContentConfig.tools (config_of agent userQuery history) = Some []).
Proof.
  do 4 (split; [reflexivity|]).
  split; [|split].
  - intros a Ha. simpl in Ha.
    destruct Ha as [<-|[<-|[<-|[<-|[]]]]]; vm_compute; reflexivity.
  - intros agent userQuery' history'. unfold config_of, agent_request.
    destruct (persona agent) as [instruction tools]. split; reflexivity.
  - intros agent Hother. unfold config_of, agent_request.
    rewrite (not_specialist_persona agent Hother). split; reflexivity.
Qed.

End Dispatch.

Lemma persona_dispatch_witness :
  starts_with "Role: PharmacyManagementAgent"
    (genai.GenerateContentConfig.systemInstruction
       (config_of (AgentType.js AgentType.PHARMACY)
                  "Check warfarin and aspirin" "User: hello")) = true /\
  genai.GenerateContentConfig.systemInstruction
    (config_of (JStr "RadiologyAgent") "Check warfarin and aspirin" "User: hello")
    = "You are a helpful hospital assistant." /\
  genai.GenerateContentConfig.tools
    (config_of (JStr "RadiologyAgent") "Check warfarin and aspirin" "User: hello")
    = Some [].
Proof.
  pose proof (persona_dispatch "Check warfarin and aspirin" "User: hello")
    as (_ & _ & _ & _ & Hrole & _ & Hother).
  split.
  - apply (Hrole AgentType.PHARMACY). simpl. auto.
  - apply (Hother (JStr "RadiologyAgent")). reflexivity.
Defined.

(** C2 fails on the code: a response whose first function call is not
    the document tool leaves the reply text empty, although the [try]
    block ends normally. *)
Theorem executeAgentTask_other_tool_empty_reply :
  agentService.executeAgentTask_try Scenario.calls_other_tool
    (AgentType.js AgentType.ADMISSION) "Find patient P-17" "User: hello"
  = Normal {| agentService.Result.text := EmptyString;
              agentService.Result.document := None;
              agentService.Result.groundingSources := Some [] |} /\
  agentService.executeAgentTask Scenario.calls_other_tool
    (AgentType.js AgentType.ADMISSION) "Find patient P-17" "User: hello"
  = Normal {| agentService.Result.text := EmptyString;
              agentService.Result.document := None;
              agentService.Result.groundingSources := Some [] |}.
Proof. split; vm_compute; reflexivity. Qed.

(** The specification's example of a document-tool invocation. *)
Lemma executeAgentTask_generate_document_witness :
  agentService.executeAgentTask Scenario.issues_invoice
    (AgentType.js AgentType.BILLING) "Invoice for surgery" "User: hello"
  = Normal {| agentService.Result.text :=
                "I have generated the INVOICE document for you. Please verify the details below.";
              agentService.Result.document :=
                Some {| GeneratedDocumentData.title := JStr "T";
                        GeneratedDocumentData.type := JStr "INVOICE";
                        GeneratedDocumentData.content := JObj [("Amount", JStr "100")];
                        GeneratedDocumentData.footer := JStr "C" |};
              agentService.Result.groundingSources := Some [] |}.
Proof.
  apply (executeAgentTask_generate_document Scenario.issues_invoice
           (AgentType.js AgentType.BILLING) "Invoice for surgery" "User: hello"
           (Scenario.reply None (Some [Scenario.invoice_call; Scenario.other_call]) None)
           Scenario.invoice_call [Scenario.other_call] Scenario.invoice_args "INVOICE");
    reflexivity.
Defined.

Lemma executeAgentTask_backend_error_witness :
  agentService.executeAgentTask Scenario.unreachable
    (AgentType.js AgentType.PHARMACY) "Check warfarin and aspirin" "User: hello"
  = Normal {| agentService.Result.text :=
                "I encountered a system error processing your request. Please contact IT support.";
              agentService.Result.document := None;
              agentService.Result.groundingSources := None |}.
Proof.
  apply (executeAgentTask_backend_error Scenario.unreachable
           (AgentType.js AgentType.PHARMACY) "Check warfarin and aspirin" "User: hello").
  reflexivity.
Defined.

(** The specification's example of citation extraction. *)
Lemma executeAgentTask_groundingSources_witness :
  exists response,
    Scenario.grounded
      (agentService.agent_request (AgentType.js AgentType.SCHEDULING)
         "Is Dr. A available?" "User: hello") = Normal response /\
    agentService.executeAgentTask Scenario.grounded
      (AgentType.js AgentType.SCHEDULING) "Is Dr. A available?" "User: hello"
    = Normal {| agentService.Result.text := "Dr. A is available.";
                agentService.Result.document := None;
                agentService.Result.groundingSources :=
                  Some [ {| GroundingSource.uri := Some "a";
                            GroundingSource.title := Some "A" |};
                         {| GroundingSource.uri := Some "b";
                            GroundingSource.title := Some "B" |} ] |} /\
    agentService.Result.groundingSources
      {| agentService.Result.text := "Dr. A is available.";
         agentService.Result.document := None;
         agentService.Result.groundingSources :=
           Some [ {| GroundingSource.uri := Some "a";
                     GroundingSource.title := Some "A" |};
                  {| GroundingSource.uri := Some "b";
                     GroundingSource.title := Some "B" |} ] |}
    = Some (web_references (attached_chunks response)).
Proof.
  apply (executeAgentTask_groundingSources Scenario.grounded
           (AgentType.js AgentType.SCHEDULING) "Is Dr. A available?" "User: hello").
  reflexivity.
Defined.

(** C8 fails as stated: when the interpretation of a grounded response
    raises (its document-tool call has no arguments), the [catch] block
    returns a result without grounding sources, and the web references
    of the response are lost. *)
Lemma executeAgentTask_drops_sources :
  exists response r,
    Scenario.grounded_bare_call
      (agentService.agent_request (AgentType.js AgentType.PHARMACY)
         "Prescribe amoxicillin" "User: hello") = Normal response /\
    web_references (attached_chunks response)
      = [ {| GroundingSource.uri := Some "a"; GroundingSource.title := Some "A" |};
          {| GroundingSource.uri := Some "b"; GroundingSource.title := Some "B" |} ] /\
    agentService.executeAgentTask Scenario.grounded_bare_call
      (AgentType.js AgentType.PHARMACY) "Prescribe amoxicillin" "User: hello"
      = Normal r /\
    agentService.Result.groundingSources r = None /\
    agentService.Result.groundingSources r
      <> Some (web_references (attached_chunks response)).
Proof.
  eexists. eexists.
  split; [vm_compute; reflexivity|].
  split; [vm_compute; reflexivity|].
  split; [vm_compute; reflexivity|].
  split; [reflexivity|discriminate].
Qed.

(* ================================================================== *)
(** ** The turn controller *)
(* ================================================================== *)

(** Case analysis on the ways of [handleSend_effect]. *)
Ltac ways H :=
  destruct H
    as [(Ha & Ho & Hm & Hl)
       |[(action & Ha & Hh & Ho & Hm & Hl)
        |[(action & history & r & Ha & Hh & Hr & Hx & Ho & Hm & Hl)
         |(action & history & r & action' & Ha & Hh & Hr & Hx & Ho & Hm & Hl)]]].

Section Controller.

Import agentService.
Import App.

Lemma historyContext_printable (ms : list ChatMessage.t) :
  Forall printable ms -> exists h, historyContext ms = Normal h.
Proof.
  unfold historyContext. intros Hall.
  assert (exists lines, history_lines ms = Normal lines) as [lines ->].
  { induction Hall as [|m rest [s Hs] _ [lines IH]]; simpl; [eauto|].
    unfold history_line. rewrite Hs. simpl. rewrite IH. simpl. eauto. }
  simpl. eauto.
Qed.

(** The result of the executor always has a printable document type. *)
Lemma executed_action_total (backend : genai.Backend) (agent : JsValue)
      (userQuery history : string) (r : Result.t) :
  executeAgentTask backend agent userQuery history = Normal r ->
  exists action, executed_action r = Normal action.
Proof.
  unfold executeAgentTask, executeAgentTask_try, interpret, executed_action.
  destruct (backend (agent_request agent userQuery history)) as [response|];
    simpl; [|intros [= <-]; simpl; eauto].
  destruct (genai.GenerateContentResponse.functionCalls response)
    as [[|call others]|]; simpl; try (intros [= <-]; simpl; eauto).
  destruct (name_is call "generate_document");
    simpl; [|intros [= <-]; simpl; eauto].
  destruct (genai.FunctionCall.args call) as [args|];
    simpl; [|intros [= <-]; simpl; eauto].
  destruct (ToString (member args "docType")) as [docType|] eqn:HdocType;
    simpl; [|intros [= <-]; simpl; eauto].
  intros [= <-]. simpl. rewrite HdocType. simpl. eauto.
Qed.

Variable env : Env.t.

Lemma handleSend_try_path (closure : list ChatMessage.t) (userMsg : ChatMessage.t)
      (st : State) :
  Path env closure (ChatMessage.text userMsg) st
       (handleSend_try env closure userMsg st).
Proof.
  unfold handleSend_try, seq, eval, update.
  destruct (orchestrateRequest_total (Env.backend env) (ChatMessage.text userMsg))
    as [d Hd].
  rewrite Hd.
  destruct (delegated_action d) as [action|] eqn:Haction;
    [|eapply Unprintable_agent; eassumption].
  destruct (historyContext closure) as [history|] eqn:Hhistory;
    [|eapply Unprintable_history; eassumption].
  destruct (executeAgentTask_total (Env.backend env) (Delegation.agent d)
              (ChatMessage.text userMsg) history) as [r Hr].
  rewrite Hr.
  destruct (executed_action r) as [action'|] eqn:Haction'.
  - eapply Through; eassumption.
  - eapply Unprintable_type; eassumption.
Qed.

Lemma handleSend_unfold (st : State) :
  rejected st = false ->
  handleSend env st =
    let p := handleSend_try env (messages st) (userMsg_of env st) (started env st) in
    setIsLoading false
      match fst p with
      | Normal _ => snd p
      | Throw => handleSend_catch env (snd p)
      end.
Proof.
  intros Hguard. unfold handleSend. rewrite Hguard.
  destruct (handleSend_try env (messages st) (userMsg_of env st) (started env st))
    as [out st2].
  reflexivity.
Qed.

(** What a call of [handleSend] that passes the guard does to the
    messages and to the audit log, along each way through the [try]
    block. *)
Lemma handleSend_effect (st : State) :
  rejected st = false ->
  exists d,
    orchestrateRequest (Env.backend env) (input st) = Normal d /\
    ((delegated_action d = Throw /\
      outcome env st = Failed /\
      messages (handleSend env st)
        = (messages st ++ [userMsg_of env st; errorMsg_of env])%list /\
      auditLogs (handleSend env st) = auditLogs st)
     \/
     (exists action,
        delegated_action d = Normal action /\
        historyContext (messages st) = Throw /\
        outcome env st = Failed /\
        messages (handleSend env st)
          = (messages st ++ [userMsg_of env st; errorMsg_of env])%list /\
        auditLogs (handleSend env st)
          = (auditLogs st
             ++ [newLog (Env.at_delegation env)
                        (AgentType.js AgentType.ORCHESTRATOR) action])%list)
     \/
     (exists action history r,
        delegated_action d = Normal action /\
        historyContext (messages st) = Normal history /\
        executeAgentTask (Env.backend env) (Delegation.agent d) (input st) history
          = Normal r /\
        executed_action r = Throw /\
        outcome env st = Failed /\
        messages (handleSend env st)
          = (messages st
             ++ [userMsg_of env st; agentMsg_of env d r; errorMsg_of env])%list /\
        auditLogs (handleSend env st)
          = (auditLogs st
             ++ [newLog (Env.at_delegation env)
                        (AgentType.js AgentType.ORCHESTRATOR) action])%list)
     \/
     (exists action history r action',
        delegated_action d = Normal action /\
        historyContext (messages st) = Normal history /\
        executeAgentTask (Env.backend env) (Delegation.agent d) (input st) history
          = Normal r /\
        executed_action r = Normal action' /\
        outcome env st = Completed /\
        messages (handleSend env st)
          = (messages st ++ [userMsg_of env st; agentMsg_of env d r])%list /\
        auditLogs (handleSend env st)
          = (auditLogs st
             ++ [newLog (Env.at_delegation env)
                        (AgentType.js AgentType.ORCHESTRATOR) action;
                 newLog (Env.at_execution env) (Delegation.agent d) action'])%list)).
Proof.
  intros Hguard. rewrite (handleSend_unfold st Hguard).
  unfold outcome. rewrite Hguard.
  pose proof (handleSend_try_path (messages st) (userMsg_of env st) (started env st))
    as P.
  destruct (handleSend_try env (messages st) (userMsg_of env st) (started env st))
    as [out st2].
  simpl in P.
  inversion P as [d Hd Ha|d action Hd Ha Hh|d action history r Hd Ha Hh Hr Hx
                  |d action history r action' Hd Ha Hh Hr Hx];
    subst; exists d; (split; [exact Hd|]); simpl;
    rewrite <- ?app_assoc; simpl.
  - left. auto.
  - right. left. exists action. auto.
  - right. right. left. exists action, history, r. auto 10.
  - right. right. right. exists action, history, r, action'. auto 10.
Qed.

Lemma appended_app {A : Type} (l added : list A) :
  appended l (l ++ added)%list = added.
Proof. unfold appended. induction l as [|x l IH]; simpl; auto. Qed.

Lemma appended_same {A : Type} (l : list A) : appended l l = [].
Proof. rewrite <- (app_nil_r l) at 2. apply appended_app. Qed.

Lemma delegated_action_printable (d : Delegation.t) (action : string) :
  delegated_action d = Normal action ->
  exists s, ToString (Delegation.agent d) = Normal s.
Proof.
  unfold delegated_action.
  destruct (ToString (Delegation.agent d)) as [s|]; simpl; [eauto|discriminate].
Qed.

(** C6, as amended: every message that [handleSend] appends with the
    role [model] is the reply of the turn, whose sender is the
    identifier that [orchestrateRequest] returned and [executeAgentTask]
    was run with (it is not validated, and may be the router's), or it
    is the error message of the [catch] block, whose sender is the
    router. *)
Theorem handleSend_reply_sender (st : State) :
  messages (handleSend env st)
    = (messages st ++ appended (messages st) (messages (handleSend env st)))%list /\
  forall m,
    In m (appended (messages st) (messages (handleSend env st))) ->
    ChatMessage.role m = model ->
    m = errorMsg_of env \/
    exists d history r,
      orchestrateRequest (Env.backend env) (input st) = Normal d /\
      historyContext (messages st) = Normal history /\
      executeAgentTask (Env.backend env) (Delegation.agent d) (input st) history
        = Normal r /\
      m = agentMsg_of env d r /\
      ChatMessage.sender m = Delegation.agent d /\
      ChatMessage.text m = Result.text r.
Proof.
  destruct (rejected st) eqn:Hguard.
  - unfold handleSend. rewrite Hguard. rewrite appended_same, app_nil_r.
    split; [reflexivity|]. intros m [].
  - destruct (handleSend_effect st Hguard) as (d & Hd & Hcases).
    ways Hcases;
      rewrite Hm, appended_app; (split; [reflexivity|]);
      intros m Hin Hrole; simpl in Hin;
      repeat match goal with
             | H : _ \/ _ |- _ => destruct H as [<-|H]
             | H : False |- _ => destruct H
             end;
      try discriminate Hrole; auto;
      right; exists d, history, r; auto 10.
Qed.

(** A turn keeps the senders of all messages printable. *)
Lemma handleSend_printable (st : State) :
  Forall printable (messages st) ->
  Forall printable (messages (handleSend env st)).
Proof.
  intros Hall.
  assert (printable (userMsg_of env st)) as Huser by (eexists; reflexivity).
  assert (printable (errorMsg_of env)) as Herror by (eexists; reflexivity).
  destruct (rejected st) eqn:Hguard.
  - unfold handleSend. rewrite Hguard. exact Hall.
  - destruct (handleSend_effect st Hguard) as (d & Hd & Hcases).
    ways Hcases;
      rewrite Hm; apply Forall_app; split; auto;
      repeat constructor; auto;
      exact (delegated_action_printable d action Ha).
Qed.

(** A turn whose history is printable adds two entries to the audit log
    when it runs to the end, and none otherwise. *)
Lemma handleSend_auditLogs_length (st : State) :
  Forall printable (messages st) ->
  length (auditLogs (handleSend env st))
    = (length (auditLogs st)
       + match outcome env st with Completed => 2 | _ => 0 end)%nat.
Proof.
  intros Hall.
  destruct (rejected st) eqn:Hguard.
  - unfold handleSend, outcome. rewrite Hguard. lia.
  - destruct (handleSend_effect st Hguard) as (d & Hd & Hcases).
    ways Hcases.
    + rewrite Ho, Hl. lia.
    + destruct (historyContext_printable (messages st) Hall) as [h Hh'].
      congruence.
    + destruct (executed_action_total _ _ _ _ r Hr) as [x Hx']. congruence.
    + rewrite Ho, Hl, length_app. simpl. lia.
Qed.

(** Every entry that a turn appends to the audit log has status
    [SUCCESS], and the entries before it are kept. *)
Lemma handleSend_auditLogs_appended (st : State) :
  auditLogs (handleSend env st)
    = (auditLogs st ++ appended (auditLogs st) (auditLogs (handleSend env st)))%list /\
  Forall succeeded
         (appended (auditLogs st) (auditLogs (handleSend env st))).
Proof.
  destruct (rejected st) eqn:Hguard.
  - unfold handleSend. rewrite Hguard. rewrite appended_same, app_nil_r. auto.
  - destruct (handleSend_effect st Hguard) as (d & Hd & Hcases).
    ways Hcases;
      rewrite Hl; rewrite ?appended_app, ?appended_same, ?app_nil_r;
      split; auto; repeat constructor.
Qed.

End Controller.

(* ================================================================== *)
(** ** Sessions *)
(* ================================================================== *)

Section Session.

Import agentService.
Import App.

Lemma run_cons (st : State) (a : Action) (rest : list Action) :
  run st (a :: rest) = run (step st a) rest.
Proof. reflexivity. Qed.

Lemma step_printable (st : State) (a : Action) :
  Forall printable (messages st) -> Forall printable (messages (step st a)).
Proof.
  destruct a as [v|env|a]; simpl; auto using handleSend_printable.
Qed.

Lemma step_auditLogs (st : State) (a : Action) :
  exists added,
    auditLogs (step st a) = (auditLogs st ++ added)%list /\
    Forall succeeded added.
Proof.
  destruct a as [v|env|a]; simpl.
  - exists []. rewrite app_nil_r. auto.
  - destruct (handleSend_auditLogs_appended env st) as [Hl Hs]. eauto.
  - exists []. rewrite app_nil_r. auto.
Qed.

Lemma run_auditLogs (actions : list Action) :
  forall st,
    exists added,
      auditLogs (run st actions) = (auditLogs st ++ added)%list /\
      Forall succeeded added.
Proof.
  induction actions as [|a rest IH]; intros st.
  - exists []. rewrite app_nil_r. auto.
  - rewrite run_cons.
    destruct (step_auditLogs st a) as (added1 & H1 & S1).
    destruct (IH (step st a)) as (added2 & H2 & S2).
    exists (added1 ++ added2)%list. split.
    + rewrite H2, H1, app_assoc. reflexivity.
    + apply Forall_app. auto.
Qed.

Lemma run_auditLogs_length (actions : list Action) :
  forall st,
    Forall printable (messages st) ->
    length (auditLogs (run st actions))
      = (length (auditLogs st) + 2 * completed_turns st actions)%nat.
Proof.
  induction actions as [|a rest IH]; intros st Hall.
  - simpl. lia.
  - rewrite run_cons, (IH (step st a) (step_printable st a Hall)).
    destruct a as [v|env|a]; simpl; try lia.
    rewrite (handleSend_auditLogs_length env st Hall).
    destruct (outcome env st); lia.
Qed.

(** C7: the audit log is append-only (whatever the user does, the log
    afterwards is the log before followed by new entries); a turn that
    completes appends exactly two entries, the delegation entry and
    then the execution entry; and in a session the log has exactly two
    entries per completed turn. *)
Theorem auditLogs_two_per_completed_turn :
  (forall st actions,
     auditLogs (run st actions)
       = (auditLogs st ++ appended (auditLogs st) (auditLogs (run st actions)))%list) /\
  (forall env st,
     outcome env st = Completed ->
     exists d history r action action',
       orchestrateRequest (Env.backend env) (input st) = Normal d /\
       delegated_action d = Normal action /\
       executeAgentTask (Env.backend env) (Delegation.agent d) (input st) history
         = Normal r /\
       executed_action r = Normal action' /\
       appended (auditLogs st) (auditLogs (handleSend env st))
         = [newLog (Env.at_delegation env) (AgentType.js AgentType.ORCHESTRATOR) action;
            newLog (Env.at_execution env) (Delegation.agent d) action']) /\
  (forall mounted actions,
     length (auditLogs (run (initial mounted) actions))
       = (2 * completed_turns (initial mounted) actions)%nat).
Proof.
  split; [|split].
  - intros st actions.
    destruct (run_auditLogs actions st) as (added & -> & _).
    rewrite appended_app. reflexivity.
  - intros env st Hdone.
    assert (rejected st = false) as Hguard.
    { unfold outcome in Hdone. destruct (rejected st); [discriminate|reflexivity]. }
    destruct (handleSend_effect env st Hguard) as (d & Hd & Hcases).
    ways Hcases; try congruence.
    exists d, history, r, action, action'.
    rewrite Hl, appended_app. auto.
  - intros mounted actions.
    rewrite run_auditLogs_length.
    + reflexivity.
    + repeat constructor. eexists. reflexivity.
Qed.

(** C10: every entry of the audit log of a session has status
    [SUCCESS]. *)
Theorem auditLogs_all_success (mounted : Z) (actions : list Action) :
  Forall (fun e => AuditLogEntry.status e = SUCCESS)
         (auditLogs (run (initial mounted) actions)).
Proof.
  destruct (run_auditLogs actions (initial mounted)) as (added & -> & Hall).
  exact Hall.
Qed.

End Session.

(* ================================================================== *)
(** ** The scenarios, evaluated *)
(* ================================================================== *)

(** C6 fails as stated: when the router's backend names the router, the
    reply of the turn is appended with the role [model] and the router's
    identifier as its sender. *)
Lemma handleSend_reply_from_router :
  In Scenario.cafeteria_reply
     (appended (App.messages (App.initial 0))
               (App.messages (App.run (App.initial 0) Scenario.asks_cafeteria))) /\
  ChatMessage.role Scenario.cafeteria_reply = model /\
  ChatMessage.sender Scenario.cafeteria_reply = AgentType.js AgentType.ORCHESTRATOR /\
  AgentType.is_specialist (ChatMessage.sender Scenario.cafeteria_reply) = false /\
  agentService.executeAgentTask Scenario.names_router
    (AgentType.js AgentType.ORCHESTRATOR) "Where is the cafeteria?"
    "Central Manager: Welcome to MHO (Manage Hospital Operations). I am the Central Manager. How can I assist you today? (e.g., 'Check my insurance claim', 'Schedule a cardiology appointment')"
  = Normal {| agentService.Result.text := ChatMessage.text Scenario.cafeteria_reply;
              agentService.Result.document := None;
              agentService.Result.groundingSources := Some [] |}.
Proof.
  split; [vm_compute; auto|].
  repeat split; vm_compute; reflexivity.
Qed.

Lemma handleSend_reply_sender_witness :
  Scenario.cafeteria_reply = App.errorMsg_of Scenario.cafeteria_env \/
  exists d history r,
    agentService.orchestrateRequest (App.Env.backend Scenario.cafeteria_env)
      (App.input Scenario.cafeteria_typed) = Normal d /\
    App.historyContext (App.messages Scenario.cafeteria_typed) = Normal history /\
    agentService.executeAgentTask (App.Env.backend Scenario.cafeteria_env)
      (agentService.Delegation.agent d) (App.input Scenario.cafeteria_typed) history
      = Normal r /\
    Scenario.cafeteria_reply = App.agentMsg_of Scenario.cafeteria_env d r /\
    ChatMessage.sender Scenario.cafeteria_reply = agentService.Delegation.agent d /\
    ChatMessage.text Scenario.cafeteria_reply = agentService.Result.text r.
Proof.
  apply (proj2 (handleSend_reply_sender Scenario.cafeteria_env Scenario.cafeteria_typed)).
  - vm_compute. auto.
  - reflexivity.
Defined.

(** The welcome message of the initial state has the role [model] and
    the router as its sender. *)
Example initial_welcome_sender :
  map (fun m => (ChatMessage.role m, ChatMessage.sender m))
      (App.messages (App.initial 0))
  = [(model, AgentType.js AgentType.ORCHESTRATOR)].
Proof. reflexivity. Qed.

(** The [catch] block of the controller can be reached: the turn then
    ends with the error message of the router and leaves the audit log
    as it was. *)
Example handleSend_unprintable_agent :
  let st := App.setInput "Where is the cafeteria?" (App.initial 0) in
  let env := Scenario.env_of Scenario.names_unprintable 1000 in
  App.outcome env st = App.Failed /\
  appended (App.messages st) (App.messages (App.handleSend env st))
    = [App.userMsg_of env st; App.errorMsg_of env] /\
  App.auditLogs (App.handleSend env st) = [] /\
  App.currentAgent (App.handleSend env st) = AgentType.js AgentType.ORCHESTRATOR.
Proof. repeat split; vm_compute; reflexivity. Qed.

Lemma auditLogs_two_per_completed_turn_witness :
  exists d history r action action',
    agentService.orchestrateRequest (App.Env.backend Scenario.invoice_env)
      (App.input Scenario.invoice_typed) = Normal d /\
    App.delegated_action d = Normal action /\
    agentService.executeAgentTask (App.Env.backend Scenario.invoice_env)
      (agentService.Delegation.agent d) (App.input Scenario.invoice_typed) history
      = Normal r /\
    App.executed_action r = Normal action' /\
    appended (App.auditLogs Scenario.invoice_typed)
             (App.auditLogs (App.handleSend Scenario.invoice_env Scenario.invoice_typed))
      = [App.newLog (App.Env.at_delegation Scenario.invoice_env)
                    (AgentType.js AgentType.ORCHESTRATOR) action;
         App.newLog (App.Env.at_execution Scenario.invoice_env)
                    (agentService.Delegation.agent d) action'].
Proof.
  apply (proj1 (proj2 auditLogs_two_per_completed_turn)
               Scenario.invoice_env Scenario.invoice_typed).
  vm_compute. reflexivity.
Defined.

(** The audit log of the session of three sends, two of which complete. *)
Example two_turns_auditLogs :
  App.completed_turns (App.initial 0) Scenario.two_turns = 2%nat /\
  map (fun e => (AuditLogEntry.agent e, AuditLogEntry.action e, AuditLogEntry.status e))
      (App.auditLogs (App.run (App.initial 0) Scenario.two_turns))
    = [(JStr "Central Manager", "Delegated to BillingAndFinanceAgent", SUCCESS);
       (JStr "BillingAndFinanceAgent", "Generated INVOICE", SUCCESS);
       (JStr "Central Manager", "Delegated to AppointmentSchedulingAgent", SUCCESS);
       (JStr "AppointmentSchedulingAgent", "Responded to query", SUCCESS)].
Proof. split; vm_compute; reflexivity. Qed.

(* ================================================================== *)
(** ** More on the executor *)
(* ================================================================== *)

Section Interpretation.

Import agentService.
Import genai.

Variable backend : Backend.
Variable agent : JsValue.
Variable userQuery history : string.

(** Without a function call the reply is the text of the backend, as it
    is, and the fixed line when the backend gave no text or an empty
    one; there is no document. *)
Theorem executeAgentTask_plain_text (response : GenerateContentResponse.t) :
  backend (agent_request agent userQuery history) = Normal response ->
  GenerateContentResponse.functionCalls response = None \/
  GenerateContentResponse.functionCalls response = Some [] ->
  exists r,
    executeAgentTask backend agent userQuery history = Normal r /\
    Result.document r = None /\
    Result.groundingSources r = Some (sources_of response) /\
    match GenerateContentResponse.text response with
    | Some (String c s) => Result.text r = String c s
    | Some EmptyString | None => Result.text r = "Processed request."
    end.
Proof.
  intros Hcall Hnone.
  unfold executeAgentTask, executeAgentTask_try, interpret.
  rewrite Hcall. simpl.
  destruct Hnone as [-> | ->]; simpl;
    (eexists; split; [reflexivity|]; simpl;
     repeat split;
     destruct (GenerateContentResponse.text response) as [[|c s]|]; reflexivity).
Qed.

(** Where the document of a result comes from. *)
Lemma executeAgentTask_document_args (r : Result.t)
      (document : GeneratedDocumentData.t) :
  executeAgentTask backend agent userQuery history = Normal r ->
  Result.document r = Some document ->
  exists response call others args docType,
    backend (agent_request agent userQuery history) = Normal response /\
    GenerateContentResponse.functionCalls response = Some (call :: others) /\
    FunctionCall.name call = Some "generate_document" /\
    FunctionCall.args call = Some args /\
    GeneratedDocumentData.type document = member args "docType" /\
    GeneratedDocumentData.title document = member args "title" /\
    GeneratedDocumentData.content document = member args "fields" /\
    GeneratedDocumentData.footer document = member args "complianceNote" /\
    ToString (GeneratedDocumentData.type document) = Normal docType /\
    Result.text r = confirmation docType /\
    Result.text r <> "Document generated.".
Proof.
  unfold executeAgentTask, executeAgentTask_try, interpret, name_is.
  destruct (backend (agent_request agent userQuery history)) as [response|];
    simpl; [|intros [= <-]; discriminate].
  destruct (GenerateContentResponse.functionCalls response)
    as [[|call others]|] eqn:Hcalls; simpl; try (intros [= <-]; discriminate).
  destruct (FunctionCall.name call) as [name|] eqn:Hname;
    simpl; [|intros [= <-]; discriminate].
  destruct (String.eqb name "generate_document") eqn:Hgd;
    simpl; [|intros [= <-]; discriminate].
  apply String.eqb_eq in Hgd. subst name.
  destruct (FunctionCall.args call) as [args|] eqn:Hargs;
    simpl; [|intros [= <-]; discriminate].
  destruct (ToString (member args "docType")) as [docType|] eqn:HdocType;
    simpl; [|intros [= <-]; discriminate].
  intros [= <-]. simpl. intros [= Hdocument]. subst document. simpl.
  exists response, call, others, args, docType.
  repeat split; auto. discriminate.
Qed.

(** A result carries a document only when the first function call of
    the response is the document tool; its fields are the arguments of
    that call, and the reply is the confirmation naming its type, never
    the default line for a document without text. *)
Theorem executeAgentTask_document_origin (r : Result.t)
        (document : GeneratedDocumentData.t) :
  executeAgentTask backend agent userQuery history = Normal r ->
  Result.document r = Some document ->
  exists response call others args docType,
    backend (agent_request agent userQuery history) = Normal response /\
    GenerateContentResponse.functionCalls response = Some (call :: others) /\
    FunctionCall.name call = Some "generate_document" /\
    FunctionCall.args call = Some args /\
    GeneratedDocumentData.type document = member args "docType" /\
    GeneratedDocumentData.title document = member args "title" /\
    GeneratedDocumentData.content document = member args "fields" /\
    GeneratedDocumentData.footer document = member args "complianceNote" /\
    ToString (GeneratedDocumentData.type document) = Normal docType /\
    Result.text r = confirmation docType /\
    Result.text r <> "Document generated.".
Proof. exact (executeAgentTask_document_args r document). Qed.

(** The reply of the [catch] block is returned exactly when the backend
    call fails, or when the first function call is the document tool
    and has no arguments or a document type that cannot be printed. *)
Theorem executeAgentTask_failure_cases :
  executeAgentTask backend agent userQuery history = Normal failure <->
  backend (agent_request agent userQuery history) = Throw \/
  exists response call others,
    backend (agent_request agent userQuery history) = Normal response /\
    GenerateContentResponse.functionCalls response = Some (call :: others) /\
    FunctionCall.name call = Some "generate_document" /\
    (FunctionCall.args call = None \/
     exists args,
       FunctionCall.args call = Some args /\
       ToString (member args "docType") = Throw).
Proof.
  unfold executeAgentTask, executeAgentTask_try, interpret, name_is.
  destruct (backend (agent_request agent userQuery history)) as [response|];
    simpl; [|split; auto].
  split.
  - intros Hrun. right. exists response.
    destruct (GenerateContentResponse.functionCalls response)
      as [[|call others]|]; simpl in Hrun; try discriminate.
    exists call, others. split; [reflexivity|]. split; [reflexivity|].
    destruct (FunctionCall.name call) as [name|];
      simpl in Hrun; [|discriminate].
    destruct (String.eqb name "generate_document") eqn:Hgd;
      simpl in Hrun; [|discriminate].
    apply String.eqb_eq in Hgd. subst name. split; [reflexivity|].
    destruct (FunctionCall.args call) as [args|]; [|auto].
    right. exists args. split; [reflexivity|].
    destruct (ToString (member args "docType")); [discriminate|reflexivity].
  - intros [Habs|(response' & call & others & [= <-] & -> & -> & Hargs)];
      [discriminate|].
    simpl. destruct Hargs as [-> | (args & -> & ->)]; reflexivity.
Qed.

(** The Sources list of a reply is rendered exactly when the executor
    ended normally on a response one of whose grounding chunks carries
    a web reference. *)
Theorem executeAgentTask_shows_sources (env : App.Env.t) (d : Delegation.t)
        (r : Result.t) :
  executeAgentTask backend agent userQuery history = Normal r ->
  View.showsSources (App.agentMsg_of env d r) = true <->
  r <> failure /\
  exists response,
    backend (agent_request agent userQuery history) = Normal response /\
    has_web (attached_chunks response) = true.
Proof.
  assert (forall chunks,
             match web_references chunks with _ :: _ => true | [] => false end
             = has_web chunks) as Hweb.
  { induction chunks as [|chunk rest IH]; [reflexivity|].
    simpl. destruct (GroundingChunk.web chunk); simpl; auto. }
  unfold executeAgentTask, executeAgentTask_try, View.showsSources.
  destruct (backend (agent_request agent userQuery history)) as [response|];
    simpl.
  - destruct (interpret response) as [[outputText generatedDoc]|]; simpl.
    + intros [= <-]. simpl. rewrite sources_of_web_references, Hweb.
      split.
      * intros Hhas. split; [discriminate|]. exists response. auto.
      * intros (_ & response' & [= <-] & Hhas). exact Hhas.
    + intros [= <-]. simpl. split; [discriminate|]. intros [Hne _]. congruence.
  - intros [= <-]. simpl. split; [discriminate|]. intros [Hne _]. congruence.
Qed.

End Interpretation.

(** The sources of a response follow its chunks: what the chunks of two
    responses give one after the other is what their concatenation
    gives, and there is at most one source per chunk. *)
Theorem sources_of_concat
        (response response1 response2 : genai.GenerateContentResponse.t)
        (chunks1 chunks2 : list genai.GroundingChunk.t) :
  agentService.groundingChunks_of response = Some (chunks1 ++ chunks2)%list ->
  agentService.groundingChunks_of response1 = Some chunks1 ->
  agentService.groundingChunks_of response2 = Some chunks2 ->
  agentService.sources_of response
    = (agentService.sources_of response1 ++ agentService.sources_of response2)%list /\
  (length (agentService.sources_of response)
   <= length chunks1 + length chunks2)%nat.
Proof.
  intros H H1 H2.
  assert (forall a b, web_references (a ++ b)%list
                      = (web_references a ++ web_references b)%list) as Happ.
  { induction a as [|chunk a IH]; intros b; [reflexivity|].
    simpl. destruct (genai.GroundingChunk.web chunk); simpl; rewrite IH; reflexivity. }
  assert (forall a, (length (web_references a) <= length a)%nat) as Hlen.
  { induction a as [|chunk a IH]; simpl; [lia|].
    destruct (genai.GroundingChunk.web chunk); simpl; lia. }
  rewrite !sources_of_web_references. unfold attached_chunks.
  rewrite H, H1, H2, Happ. split; [reflexivity|].
  rewrite length_app. pose proof (Hlen chunks1). pose proof (Hlen chunks2). lia.
Qed.

(* ================================================================== *)
(** ** More on the turn controller *)
(* ================================================================== *)

Section Turn.

Import agentService.
Import App.

Variable env : Env.t.

Lemma blank_trimStart (l : list ascii) :
  forallb is_space l = true -> trimStart_from 0 l = [].
Proof.
  induction l as [|c rest IH]; [reflexivity|].
  simpl forallb. intros Hall. apply andb_true_iff in Hall as [Hc Hrest].
  assert (ws_length (c :: rest) = 1%nat) as Hws.
  { unfold is_space in Hc. unfold ws_length. simpl map.
    repeat (apply orb_true_iff in Hc; destruct Hc as [Hc|Hc]);
      apply N.eqb_eq in Hc; rewrite Hc; reflexivity. }
  simpl trimStart_from. rewrite Hws. exact (IH Hrest).
Qed.

Lemma blank_trim (s : string) : blank s = true -> trim s = EmptyString.
Proof.
  unfold blank, trim, trimStart. intros Hblank.
  rewrite (blank_trimStart _ Hblank). reflexivity.
Qed.

(** The guard: with an input made only of white space (or empty), or
    while a turn is in flight, [handleSend] leaves the whole state as it
    is: no message, no audit entry, no backend call. *)
Theorem handleSend_refused (st : State) :
  blank (input st) = true \/ isLoading st = true ->
  handleSend env st = st /\ outcome env st = Rejected.
Proof.
  intros Hguard.
  assert (rejected st = true) as Hrej.
  { unfold rejected. destruct Hguard as [Hblank|Hloading].
    - rewrite (blank_trim _ Hblank). reflexivity.
    - rewrite Hloading. apply orb_true_r. }
  unfold handleSend, outcome. rewrite Hrej. auto.
Qed.

(** What an accepted turn leaves in the input box, the loading flag and
    the agent indicator. *)
Lemma handleSend_status (st : State) :
  rejected st = false ->
  exists d,
    orchestrateRequest (Env.backend env) (input st) = Normal d /\
    input (handleSend env st) = EmptyString /\
    isLoading (handleSend env st) = false /\
    ((outcome env st = Completed /\
      currentAgent (handleSend env st) = Delegation.agent d) \/
     (outcome env st = Failed /\
      currentAgent (handleSend env st) = AgentType.js AgentType.ORCHESTRATOR)).
Proof.
  intros Hguard. rewrite (handleSend_unfold env st Hguard).
  unfold outcome. rewrite Hguard.
  pose proof (handleSend_try_path env (messages st) (userMsg_of env st)
                                  (started env st)) as P.
  destruct (handleSend_try env (messages st) (userMsg_of env st) (started env st))
    as [out st2].
  simpl in P.
  inversion P as [d Hd Ha|d action Hd Ha Hh|d action history r Hd Ha Hh Hr Hx
                  |d action history r action' Hd Ha Hh Hr Hx];
    subst; exists d; (split; [exact Hd|]); simpl; auto.
Qed.

(** When the Send button is enabled, [handleSend] appends the user's
    message, which carries the input as it was typed, followed by at
    least one message of role [model]; it empties the input box and
    ends with the loading flag off. *)
Theorem handleSend_accepted (st : State) :
  View.sendDisabled st = false ->
  input (handleSend env st) = EmptyString /\
  isLoading (handleSend env st) = false /\
  exists replies,
    messages (handleSend env st)
      = (messages st ++ userMsg_of env st :: replies)%list /\
    ChatMessage.role (userMsg_of env st) = user /\
    ChatMessage.text (userMsg_of env st) = input st /\
    replies <> [] /\
    Forall (fun m => ChatMessage.role m = model) replies.
Proof.
  intros Henabled.
  assert (rejected st = false) as Hguard.
  { unfold View.sendDisabled in Henabled. unfold rejected.
    rewrite orb_comm. exact Henabled. }
  destruct (handleSend_status st Hguard) as (d0 & _ & Hinput & Hloading & _).
  split; [exact Hinput|]. split; [exact Hloading|].
  destruct (handleSend_effect env st Hguard) as (d & Hd & Hcases).
  ways Hcases; rewrite Hm; eexists; (split; [reflexivity|]);
    repeat split; try discriminate; repeat constructor.
Qed.


(** In a state whose senders are printable, an accepted turn appends the
    user's message and exactly one reply. *)
Lemma handleSend_two_messages (st : State) :
  Forall printable (messages st) ->
  rejected st = false ->
  exists reply,
    messages (handleSend env st)
      = (messages st ++ [userMsg_of env st; reply])%list /\
    ChatMessage.role reply = model.
Proof.
  intros Hall Hguard.
  destruct (handleSend_effect env st Hguard) as (d & Hd & Hcases).
  ways Hcases.
  - eauto.
  - destruct (historyContext_printable (messages st) Hall) as [h Hh'].
    congruence.
  - destruct (executed_action_total _ _ _ _ r Hr) as [x Hx']. congruence.
  - eauto.
Qed.

(** In a state whose senders are printable, an accepted turn completes
    exactly when the agent the router returned can be printed. *)
Lemma handleSend_completes (st : State) :
  Forall printable (messages st) ->
  rejected st = false ->
  exists d,
    orchestrateRequest (Env.backend env) (input st) = Normal d /\
    (outcome env st = Completed <->
     exists s, ToString (Delegation.agent d) = Normal s) /\
    (outcome env st = Failed <-> ToString (Delegation.agent d) = Throw).
Proof.
  intros Hall Hguard.
  destruct (handleSend_effect env st Hguard) as (d & Hd & Hcases).
  exists d. split; [exact Hd|].
  ways Hcases.
  - assert (ToString (Delegation.agent d) = Throw) as Hraise.
    { unfold delegated_action in Ha.
      destruct (ToString (Delegation.agent d)); [discriminate|reflexivity]. }
    rewrite Ho, Hraise. split; split; auto; try discriminate.
    intros [s Hs]. discriminate.
  - destruct (historyContext_printable (messages st) Hall) as [h Hh'].
    congruence.
  - destruct (executed_action_total _ _ _ _ r Hr) as [x Hx']. congruence.
  - destruct (delegated_action_printable d action Ha) as [s Hs].
    rewrite Ho, Hs. split; split; eauto; discriminate.
Qed.

(** In a turn that completes, the reply and the execution entry of the
    audit log agree: the entry is attributed to the sender of the
    reply, it reads [Generated <type>] exactly when the reply carries a
    document of that type (and the reply is then the confirmation for
    that type), and [Responded to query] otherwise. *)
Theorem handleSend_reply_and_entry (st : State) :
  outcome env st = Completed ->
  exists reply delegation execution,
    messages (handleSend env st)
      = (messages st ++ [userMsg_of env st; reply])%list /\
    auditLogs (handleSend env st)
      = (auditLogs st ++ [delegation; execution])%list /\
    AuditLogEntry.agent execution = ChatMessage.sender reply /\
    match ChatMessage.documentData reply with
    | None => AuditLogEntry.action execution = "Responded to query"
    | Some document =>
        exists type,
          ToString (GeneratedDocumentData.type document) = Normal type /\
          AuditLogEntry.action execution = "Generated " ++ type /\
          ChatMessage.text reply = confirmation type
    end.
Proof.
  intros Hdone.
  assert (rejected st = false) as Hguard.
  { unfold outcome in Hdone. destruct (rejected st); [discriminate|reflexivity]. }
  destruct (handleSend_effect env st Hguard) as (d & Hd & Hcases).
  ways Hcases; try congruence.
  eexists. eexists. eexists.
  split; [exact Hm|]. split; [exact Hl|]. split; [reflexivity|].
  simpl.
  destruct (Result.document r) as [document|] eqn:Hdocument.
  - destruct (executeAgentTask_document_args _ _ _ _ r document Hr Hdocument)
      as (response & call & others & args & type
          & _ & _ & _ & _ & _ & _ & _ & _ & Htype & Htext & _).
    exists type. split; [exact Htype|]. split; [|exact Htext].
    unfold executed_action in Hx. rewrite Hdocument, Htype in Hx.
    simpl in Hx. congruence.
  - unfold executed_action in Hx. rewrite Hdocument in Hx. congruence.
Qed.

End Turn.

(* ================================================================== *)
(** ** More on sessions *)
(* ================================================================== *)

Section Sessions.

Import agentService.
Import App.

Lemma run_printable (actions : list Action) :
  forall st,
    Forall printable (messages st) ->
    Forall printable (messages (run st actions)).
Proof.
  induction actions as [|a rest IH]; intros st Hall; [exact Hall|].
  rewrite run_cons. apply IH. apply step_printable. exact Hall.
Qed.

Lemma initial_printable (mounted : Z) :
  Forall printable (messages (initial mounted)).
Proof. repeat constructor. eexists. reflexivity. Qed.

Lemma step_messages (st : State) (a : Action) :
  exists added, messages (step st a) = (messages st ++ added)%list.
Proof.
  destruct a as [v|env|a]; simpl; try (exists []; rewrite app_nil_r; reflexivity).
  destruct (rejected st) eqn:Hguard.
  - unfold handleSend. rewrite Hguard. exists []. rewrite app_nil_r. reflexivity.
  - destruct (handleSend_effect env st Hguard) as (d & Hd & Hcases).
    ways Hcases; rewrite Hm; eauto.
Qed.

(** The messages are append-only: whatever the user does, the list
    afterwards is the list before followed by new messages. *)
Theorem messages_append_only (st : State) (actions : list Action) :
  messages (run st actions)
    = (messages st ++ appended (messages st) (messages (run st actions)))%list.
Proof.
  assert (exists added, messages (run st actions) = (messages st ++ added)%list)
    as [added ->].
  { revert st. induction actions as [|a rest IH]; intros st.
    - exists []. rewrite app_nil_r. reflexivity.
    - rewrite run_cons.
      destruct (step_messages st a) as [added1 H1].
      destruct (IH (step st a)) as [added2 H2].
      exists (added1 ++ added2)%list. rewrite H2, H1, app_assoc. reflexivity. }
  rewrite appended_app. reflexivity.
Qed.

Lemma step_not_loading (st : State) (a : Action) :
  isLoading st = false -> isLoading (step st a) = false.
Proof.
  intros Hidle. destruct a as [v|env|a]; simpl; auto.
  destruct (rejected st) eqn:Hguard.
  - unfold handleSend. rewrite Hguard. exact Hidle.
  - destruct (handleSend_status env st Hguard) as (d & _ & _ & Hloading & _).
    exact Hloading.
Qed.

(** A session never stays in the loading state: after any sequence of
    actions the flag is off, so only a blank input disables the Send
    button. *)
Theorem session_not_loading (mounted : Z) (actions : list Action) :
  isLoading (run (initial mounted) actions) = false /\
  View.sendDisabled (run (initial mounted) actions)
    = String.eqb (trim (input (run (initial mounted) actions))) EmptyString.
Proof.
  assert (forall st, isLoading st = false -> isLoading (run st actions) = false)
    as Hrun.
  { induction actions as [|a rest IH]; intros st Hidle; [exact Hidle|].
    rewrite run_cons. apply IH. apply step_not_loading. exact Hidle. }
  pose proof (Hrun (initial mounted) eq_refl) as Hidle.
  split; [exact Hidle|]. unfold View.sendDisabled. rewrite Hidle. reflexivity.
Qed.

Lemma run_roles (actions : list Action) :
  forall st,
    Forall printable (messages st) ->
    map ChatMessage.role (messages (run st actions))
      = (map ChatMessage.role (messages st)
         ++ turn_roles (accepted_turns st actions))%list.
Proof.
  induction actions as [|a rest IH]; intros st Hall.
  - simpl. rewrite app_nil_r. reflexivity.
  - rewrite run_cons, (IH (step st a) (step_printable st a Hall)).
    destruct a as [v|env|a]; simpl; try reflexivity.
    destruct (rejected st) eqn:Hguard.
    + unfold handleSend. rewrite Hguard. reflexivity.
    + destruct (handleSend_two_messages env st Hall Hguard) as (reply & Hm & Hrole).
      rewrite Hm, map_app, <- app_assoc. simpl. rewrite Hrole. reflexivity.
Qed.

(** In a session every accepted request gets exactly one reply: the
    roles of the messages are the welcome, then a request and a reply
    for each send that passed the guard. *)
Theorem session_roles (mounted : Z) (actions : list Action) :
  map ChatMessage.role (messages (run (initial mounted) actions))
    = model :: turn_roles (accepted_turns (initial mounted) actions).
Proof.
  rewrite (run_roles actions (initial mounted) (initial_printable mounted)).
  reflexivity.
Qed.

(** In a session a turn that passes the guard completes exactly when
    the agent the router returned can be printed, and it ends in the
    [catch] block exactly when it cannot; a string always can. *)
Theorem session_turn_completes (mounted : Z) (actions : list Action)
        (env : Env.t) :
  rejected (run (initial mounted) actions) = false ->
  exists d,
    orchestrateRequest (Env.backend env) (input (run (initial mounted) actions))
      = Normal d /\
    (outcome env (run (initial mounted) actions) = Completed <->
     exists s, ToString (Delegation.agent d) = Normal s) /\
    (outcome env (run (initial mounted) actions) = Failed <->
     ToString (Delegation.agent d) = Throw) /\
    (forall s, Delegation.agent d = JStr s ->
               outcome env (run (initial mounted) actions) = Completed).
Proof.
  intros Hguard.
  destruct (handleSend_completes env (run (initial mounted) actions)
              (run_printable actions _ (initial_printable mounted)) Hguard)
    as (d & Hd & Hdone & Hfail).
  exists d. repeat split; try apply Hdone; try apply Hfail; auto.
  intros s Hs. apply Hdone. exists s. rewrite Hs. reflexivity.
Qed.


(** In a session every row of the audit log is shown in green, the
    class of the status [SUCCESS]. *)
Theorem rows_all_green (mounted : Z) (actions : list Action) :
  Forall (fun log => Sidebar.statusClass log = "font-mono font-bold text-green-600")
         (Sidebar.rows (auditLogs (run (initial mounted) actions))).
Proof.
  destruct (run_auditLogs actions (initial mounted)) as (added & -> & Hall).
  unfold Sidebar.rows. apply Forall_rev. simpl.
  eapply Forall_impl; [|exact Hall].
  intros log Hlog. unfold succeeded in Hlog. unfold Sidebar.statusClass.
  rewrite Hlog. reflexivity.
Qed.


End Sessions.

(* ================================================================== *)
(** ** The views *)
(* ================================================================== *)

(** At most one agent button is marked as active; a click on a button
    marks that agent and no other; and no button is marked exactly when
    the agent indicator holds no member of the enumeration. *)
Theorem marked_agent :
  (forall activeAgent, (length (Sidebar.marked activeAgent) <= 1)%nat) /\
  (forall st agent,
     In agent Sidebar.agents ->
     Sidebar.marked (App.currentAgent (App.step st (Sidebar.onClick agent)))
       = [agent]) /\
  (forall activeAgent,
     Sidebar.marked activeAgent = [] <->
     forall a, activeAgent <> AgentType.js a).
Proof.
  split; [|split].
  - intros [| |b|n|s|items|props]; try (vm_compute; lia).
    unfold Sidebar.marked, Sidebar.agents, Sidebar.isActive. simpl.
    repeat match goal with
           | |- context [String.eqb s ?c] => destruct (String.eqb s c) eqn:?
           end; simpl; try lia; exfalso;
      repeat match goal with
             | H : String.eqb _ _ = true |- _ => apply String.eqb_eq in H
             end; congruence.
  - intros st agent Hin. simpl in Hin.
    destruct Hin as [<-|[<-|[<-|[<-|[<-|[]]]]]]; reflexivity.
  - intros activeAgent. split.
    + intros Hnone a ->. destruct a; vm_compute in Hnone; discriminate.
    + intros Hno.
      destruct activeAgent as [| |b|n|s|items|props]; try reflexivity.
      unfold Sidebar.marked, Sidebar.agents, Sidebar.isActive. simpl.
      repeat match goal with
             | |- context [String.eqb s ?c] => destruct (String.eqb s c) eqn:?
             end; try reflexivity; exfalso;
        repeat match goal with
               | H : String.eqb _ _ = true |- _ => apply String.eqb_eq in H
               end; subst.
      all: first [ exact (Hno AgentType.ORCHESTRATOR eq_refl)
                 | exact (Hno AgentType.ADMISSION eq_refl)
                 | exact (Hno AgentType.SCHEDULING eq_refl)
                 | exact (Hno AgentType.PHARMACY eq_refl)
                 | exact (Hno AgentType.BILLING eq_refl)
                 | congruence ].
Qed.

(** The icon and the frame of a document agree: a document gets the
    default icon exactly when it gets the default grey frame, which is
    exactly when its type is none of [INVOICE], [PRESCRIPTION] and
    [ADMISSION_FORM]. *)
Theorem document_default_look (data : GeneratedDocumentData.t) :
  (DocumentViewer.getIcon data = "📄" <->
   DocumentViewer.getColor data = "border-gray-500 bg-gray-50") /\
  (DocumentViewer.getColor data = "border-gray-500 bg-gray-50" <->
   GeneratedDocumentData.type data <> JStr "INVOICE" /\
   GeneratedDocumentData.type data <> JStr "PRESCRIPTION" /\
   GeneratedDocumentData.type data <> JStr "ADMISSION_FORM").
Proof.
  unfold DocumentViewer.getIcon, DocumentViewer.getColor.
  destruct (GeneratedDocumentData.type data) as [| |b|n|s|items|props];
    simpl; try (repeat split; intros; discriminate || reflexivity).
  destruct (String.eqb s "INVOICE") eqn:H1;
    [apply String.eqb_eq in H1; subst
    |destruct (String.eqb s "PRESCRIPTION") eqn:H2;
     [apply String.eqb_eq in H2; subst
     |destruct (String.eqb s "ADMISSION_FORM") eqn:H3;
      [apply String.eqb_eq in H3; subst|]]].
  - repeat split; try discriminate; intros (H & _ & _); congruence.
  - repeat split; try discriminate; intros (_ & H & _); congruence.
  - repeat split; try discriminate; intros (_ & _ & H); congruence.
  - apply String.eqb_neq in H1, H2, H3.
    repeat split; auto; congruence.
Qed.

(** The label of a field has the length of its key and no underscore:
    every underscore has become a space, every other character is
    kept, and labelling a label changes nothing. *)
Theorem fieldLabel_spaces (key : string) :
  String.length (DocumentViewer.fieldLabel key) = String.length key /\
  (forall n, String.get n (DocumentViewer.fieldLabel key) <> Some "_"%char) /\
  (forall n c,
     String.get n key = Some c ->
     String.get n (DocumentViewer.fieldLabel key)
       = Some (if Ascii.eqb c "_"%char then " "%char else c)) /\
  DocumentViewer.fieldLabel (DocumentViewer.fieldLabel key)
    = DocumentViewer.fieldLabel key.
Proof.
  induction key as [|c rest (Hlen & Hnone & Hkeep & Hidem)].
  - repeat split; try reflexivity; intros; simpl in *; discriminate.
  - simpl. split; [f_equal; exact Hlen|]. split; [|split].
    + intros [|n]; simpl; [|apply Hnone].
      destruct (Ascii.eqb c "_"%char) eqn:Hc; [discriminate|].
      apply Ascii.eqb_neq in Hc. congruence.
    + intros [|n] c'; simpl; [intros [= <-]; reflexivity|apply Hkeep].
    + f_equal; [|exact Hidem].
      destruct (Ascii.eqb c "_"%char) eqn:Hc; [reflexivity|].
      rewrite Hc. reflexivity.
Qed.

(* ================================================================== *)
(** ** Further scenarios, evaluated *)
(* ================================================================== *)

Lemma executeAgentTask_plain_text_witness :
  exists r,
    agentService.executeAgentTask Cases.plain
      (AgentType.js AgentType.SCHEDULING) "Is Dr. A available?" "User: hello"
      = Normal r /\
    agentService.Result.document r = None /\
    agentService.Result.groundingSources r
      = Some (agentService.sources_of
                (Scenario.reply (Some "Dr. A is available on Monday.") None None)) /\
    agentService.Result.text r = "Dr. A is available on Monday.".
Proof.
  apply (executeAgentTask_plain_text Cases.plain
           (AgentType.js AgentType.SCHEDULING) "Is Dr. A available?" "User: hello"
           (Scenario.reply (Some "Dr. A is available on Monday.") None None)).
  - reflexivity.
  - left. reflexivity.
Defined.

Lemma executeAgentTask_document_origin_witness :
  exists response call others args docType,
    Scenario.issues_invoice
      (agentService.agent_request (AgentType.js AgentType.BILLING)
         "Invoice for surgery" "User: hello") = Normal response /\
    genai.GenerateContentResponse.functionCalls response = Some (call :: others) /\
    genai.FunctionCall.name call = Some "generate_document" /\
    genai.FunctionCall.args call = Some args /\
    GeneratedDocumentData.type Cases.invoice_document = member args "docType" /\
    GeneratedDocumentData.title Cases.invoice_document = member args "title" /\
    GeneratedDocumentData.content Cases.invoice_document = member args "fields" /\
    GeneratedDocumentData.footer Cases.invoice_document
      = member args "complianceNote" /\
    ToString (GeneratedDocumentData.type Cases.invoice_document) = Normal docType /\
    agentService.Result.text Cases.invoice_result = confirmation docType /\
    agentService.Result.text Cases.invoice_result <> "Document generated.".
Proof.
  apply (executeAgentTask_document_origin Scenario.issues_invoice
           (AgentType.js AgentType.BILLING) "Invoice for surgery" "User: hello"
           Cases.invoice_result Cases.invoice_document);
    reflexivity.
Defined.

Lemma executeAgentTask_failure_cases_witness :
  agentService.executeAgentTask Scenario.grounded_bare_call
    (AgentType.js AgentType.PHARMACY) "Prescribe amoxicillin" "User: hello"
  = Normal agentService.failure.
Proof.
  apply (executeAgentTask_failure_cases Scenario.grounded_bare_call
           (AgentType.js AgentType.PHARMACY) "Prescribe amoxicillin" "User: hello").
  right.
  exists (Scenario.reply None (Some [Scenario.bare_call]) (Some Scenario.chunks)),
         Scenario.bare_call, [].
  repeat split. left. reflexivity.
Defined.

Lemma executeAgentTask_shows_sources_witness :
  View.showsSources
    (App.agentMsg_of Cases.schedule_env Cases.schedule_delegation
                     Cases.schedule_result) = true <->
  Cases.schedule_result <> agentService.failure /\
  exists response,
    Scenario.grounded
      (agentService.agent_request (AgentType.js AgentType.SCHEDULING)
         "Is Dr. A available?" "User: hello") = Normal response /\
    has_web (attached_chunks response) = true.
Proof.
  apply (executeAgentTask_shows_sources Scenario.grounded
           (AgentType.js AgentType.SCHEDULING) "Is Dr. A available?" "User: hello"
           Cases.schedule_env Cases.schedule_delegation Cases.schedule_result).
  reflexivity.
Defined.

Lemma sources_of_concat_witness :
  agentService.sources_of (Scenario.reply None None (Some Scenario.chunks))
    = (agentService.sources_of
         (Scenario.reply None None (Some [Scenario.web "a" "A"]))
       ++ agentService.sources_of
            (Scenario.reply None None
               (Some [Scenario.no_web; Scenario.web "b" "B"])))%list /\
  (length (agentService.sources_of (Scenario.reply None None (Some Scenario.chunks)))
   <= length [Scenario.web "a" "A"]
      + length [Scenario.no_web; Scenario.web "b" "B"])%nat.
Proof.
  apply (sources_of_concat
           (Scenario.reply None None (Some Scenario.chunks))
           (Scenario.reply None None (Some [Scenario.web "a" "A"]))
           (Scenario.reply None None (Some [Scenario.no_web; Scenario.web "b" "B"])));
    reflexivity.
Defined.

Lemma handleSend_refused_witness :
  App.handleSend Cases.schedule_env Cases.blank_typed = Cases.blank_typed /\
  App.outcome Cases.schedule_env Cases.blank_typed = App.Rejected.
Proof.
  apply (handleSend_refused Cases.schedule_env Cases.blank_typed).
  left. reflexivity.
Defined.

Lemma handleSend_accepted_witness :
  App.input (App.handleSend Cases.schedule_env Cases.schedule_typed) = EmptyString /\
  App.isLoading (App.handleSend Cases.schedule_env Cases.schedule_typed) = false /\
  exists replies,
    App.messages (App.handleSend Cases.schedule_env Cases.schedule_typed)
      = (App.messages Cases.schedule_typed
         ++ App.userMsg_of Cases.schedule_env Cases.schedule_typed :: replies)%list /\
    ChatMessage.role (App.userMsg_of Cases.schedule_env Cases.schedule_typed) = user /\
    ChatMessage.text (App.userMsg_of Cases.schedule_env Cases.schedule_typed)
      = App.input Cases.schedule_typed /\
    replies <> [] /\
    Forall (fun m => ChatMessage.role m = model) replies.
Proof.
  apply (handleSend_accepted Cases.schedule_env Cases.schedule_typed).
  reflexivity.
Defined.

Lemma handleSend_reply_and_entry_witness :
  exists reply delegation execution,
    App.messages (App.handleSend Scenario.invoice_env Scenario.invoice_typed)
      = (App.messages Scenario.invoice_typed
         ++ [App.userMsg_of Scenario.invoice_env Scenario.invoice_typed; reply])%list /\
    App.auditLogs (App.handleSend Scenario.invoice_env Scenario.invoice_typed)
      = (App.auditLogs Scenario.invoice_typed ++ [delegation; execution])%list /\
    AuditLogEntry.agent execution = ChatMessage.sender reply /\
    match ChatMessage.documentData reply with
    | None => AuditLogEntry.action execution = "Responded to query"
    | Some document =>
        exists type,
          ToString (GeneratedDocumentData.type document) = Normal type /\
          AuditLogEntry.action execution = "Generated " ++ type /\
          ChatMessage.text reply = confirmation type
    end.
Proof.
  apply (handleSend_reply_and_entry Scenario.invoice_env Scenario.invoice_typed).
  vm_compute. reflexivity.
Defined.

Lemma session_turn_completes_witness :
  exists d,
    agentService.orchestrateRequest (App.Env.backend Cases.schedule_env)
      (App.input (App.run (App.initial 0) [App.Type_ "Is Dr. A available?"]))
      = Normal d /\
    (App.outcome Cases.schedule_env
       (App.run (App.initial 0) [App.Type_ "Is Dr. A available?"]) = App.Completed <->
     exists s, ToString (agentService.Delegation.agent d) = Normal s) /\
    (App.outcome Cases.schedule_env
       (App.run (App.initial 0) [App.Type_ "Is Dr. A available?"]) = App.Failed <->
     ToString (agentService.Delegation.agent d) = Throw) /\
    (forall s, agentService.Delegation.agent d = JStr s ->
               App.outcome Cases.schedule_env
                 (App.run (App.initial 0) [App.Type_ "Is Dr. A available?"])
               = App.Completed).
Proof.
  apply (session_turn_completes 0 [App.Type_ "Is Dr. A available?"]
                                Cases.schedule_env).
  reflexivity.
Defined.


Lemma marked_agent_witness :
  Sidebar.marked
    (App.currentAgent
       (App.step Scenario.cafeteria_typed (Sidebar.onClick Cases.pharmacy_button)))
  = [Cases.pharmacy_button].
Proof.
  apply (proj1 (proj2 marked_agent) Scenario.cafeteria_typed Cases.pharmacy_button).
  simpl. auto.
Defined.

(** A memo, although the document tool can produce one, has the default
    look. *)
Lemma document_default_look_witness :
  DocumentViewer.getIcon Cases.memo_document = "📄".
Proof.
  apply (proj2 (proj1 (document_default_look Cases.memo_document))).
  reflexivity.
Defined.

Lemma fieldLabel_spaces_witness :
  String.get 7 (DocumentViewer.fieldLabel "patient_name") = Some " "%char.
Proof.
  apply (proj1 (proj2 (proj2 (fieldLabel_spaces "patient_name"))) 7%nat "_"%char).
  reflexivity.
Defined.
